(** * VendSwift backend: the machine catalogue lookup

    A shallow embedding of [main.py]: the connection helper [get_conn],
    the response models [ProductOut] and [MachineProductsResponse], and
    the request handler [get_machine_products], together with the two
    SQL statements it sends, read as functions over a small relational
    model of the store.

    The handler is effectful: it opens a connection, runs statements
    through a cursor, may raise, and closes the connection in a
    [finally] block.  It is embedded in a monad that threads the store
    it talks to, returns either a value or a raised exception, and
    records every driver call in a chronological trace. *)

From Stdlib Require Import List String ZArith Bool Lia.
From Stdlib Require Import Sorting.Sorted Sorting.Permutation OrderedTypeEx.
From Stdlib Require Import Floats.SpecFloat.
Import ListNotations.

Local Open Scope string_scope.
Local Open Scope Z_scope.
Local Open Scope list_scope.

(** ** Values exchanged with the driver *)

(** A [numeric] column arrives as a Python [Decimal]: a signed
    coefficient scaled by a power of ten. *)
Record Decimal : Type := mkDecimal {
  dec_coefficient : Z;
  dec_exponent : Z
}.

(** Values bound to the [%s] placeholders of a statement. *)
Inductive param : Type :=
| PText (s : string)
| PInteger (z : Z)
| PNull.

(** Rows of a [RealDictCursor], one record per statement: the keys are
    fixed by the [SELECT] list, and a field is [None] where the column
    holds SQL [NULL] (Python [None]). *)
Record machine_row : Type := mkMachineRow {
  mr_id : option Z;
  mr_code : option string;
  mr_name : option string
}.

Record product_row : Type := mkProductRow {
  pr_sku : option string;
  pr_name : option string;
  pr_description : option string;
  pr_price : option Decimal;
  pr_currency : option string;
  pr_image_url : option string
}.

(** ** Exceptions and results *)

Inductive exn : Type :=
| HTTPException (status_code : Z) (detail : string)
| DatabaseError (msg : string)
| TypeError
| ValidationError.

Inductive result (A : Type) : Type :=
| Ok (a : A)
| Raise (e : exn).

Arguments Ok {A} a.
Arguments Raise {A} e.

(** ** The store seen through the driver *)

(** Keyword arguments of [psycopg2.connect]. *)
Record conninfo : Type := mkConninfo {
  ci_dbname : option string;
  ci_user : option string;
  ci_password : option string;
  ci_host : option string;
  ci_port : option string
}.

(** Driver calls, in the order they happen. *)
Inductive event : Type :=
| EvConnect (ci : conninfo)
| EvCursor
| EvExecute (sql : string) (params : list param)
| EvCursorClose
| EvClose.

(** What the process and the store answer during one request.  A
    failing call answers with the driver's error message. *)
Record store : Type := mkStore {
  st_environ : string -> option string;
  st_connect : conninfo -> option string;
  st_cursor : option string;
  st_machines : list param -> string + list machine_row;
  st_products : list param -> string + list product_row
}.

(** A statement: its SQL text and the answer channel of the store that
    yields its rows. *)
Record query (R : Type) : Type := mkQuery {
  q_text : string;
  q_answer : store -> list param -> string + list R
}.

Arguments q_text {R} q.
Arguments q_answer {R} q.

(** ** The effect monad *)

Definition M (A : Type) : Type := store -> result A * list event.

Definition ret {A : Type} (a : A) : M A := fun _ => (Ok a, []).

Definition raise {A : Type} (e : exn) : M A := fun _ => (Raise e, []).

Definition bind {A B : Type} (m : M A) (k : A -> M B) : M B :=
  fun st =>
    match m st with
    | (Ok a, t) => let (r, t') := k a st in (r, t ++ t')
    | (Raise e, t) => (Raise e, t)
    end.

Definition emit (ev : event) : M unit := fun _ => (Ok tt, [ev]).

Definition ask : M store := fun st => (Ok st, []).

Definition lift {A : Type} (r : result A) : M A := fun _ => (r, []).

(** [try: body finally: cleanup]: the cleanup runs on every exit of
    the body; the body's outcome stands unless the cleanup raises. *)
Definition try_finally {A : Type} (body : M A) (cleanup : M unit) : M A :=
  fun st =>
    let (r, t) := body st in
    match cleanup st with
    | (Ok _, t') => (r, t ++ t')
    | (Raise e, t') => (Raise e, t ++ t')
    end.

Declare Scope monad_scope.
Delimit Scope monad_scope with monad.

Notation "x <- m ;; k" := (bind m (fun x => k))
  (at level 61, m at next level, right associativity) : monad_scope.
Notation "m ;;; k" := (bind m (fun _ => k))
  (at level 61, right associativity) : monad_scope.

Local Open Scope monad_scope.

(** The pure fragment: construction of the response models. *)
Definition rbind {A B : Type} (r : result A) (k : A -> result B) : result B :=
  match r with
  | Ok a => k a
  | Raise e => Raise e
  end.

Fixpoint map_result {A B : Type} (f : A -> result B) (l : list A)
  : result (list B) :=
  match l with
  | [] => Ok []
  | x :: xs =>
      rbind (f x) (fun y => rbind (map_result f xs) (fun ys => Ok (y :: ys)))
  end.

(** ** Driver primitives *)

Inductive connection : Type := Conn.

(** The cursor holds the rows of the last statement not yet fetched. *)
Definition cursor (R : Type) : Type := list R.

Definition getenv (key : string) : M (option string) :=
  st <- ask ;; ret (st_environ st key).

Definition getenv_default (key default : string) : M (option string) :=
  st <- ask ;;
  ret (match st_environ st key with
       | Some v => Some v
       | None => Some default
       end).

Definition connect (ci : conninfo) : M connection :=
  emit (EvConnect ci) ;;;
  st <- ask ;;
  match st_connect st ci with
  | Some msg => raise (DatabaseError msg)
  | None => ret Conn
  end.

(** [conn.close()] *)
Definition close (conn : connection) : M unit := emit EvClose.

(** [with conn.cursor(...) as cur: body]: the cursor is closed when
    the block is left, normally or by an exception. *)
Definition with_cursor {A : Type} (conn : connection)
    (body : cursor unit -> M A) : M A :=
  emit EvCursor ;;;
  st <- ask ;;
  match st_cursor st with
  | Some msg => raise (DatabaseError msg)
  | None => try_finally (body []) (emit EvCursorClose)
  end.

Definition execute {R R' : Type} (cur : cursor R') (q : query R)
    (params : list param) : M (cursor R) :=
  emit (EvExecute (q_text q) params) ;;;
  st <- ask ;;
  match q_answer q st params with
  | inl msg => raise (DatabaseError msg)
  | inr rows => ret rows
  end.

(** [fetchone] answers the next row, or [None] when there is none.  A
    fetched row carries every key of its [SELECT] list, so it is never
    an empty dictionary: [not machine] holds for [None] only. *)
Definition fetchone {R : Type} (cur : cursor R) : option R := hd_error cur.

Definition fetchall {R : Type} (cur : cursor R) : list R := cur.

(** ** The two statements *)

Definition SQL_MACHINE : string :=
"
                SELECT id, code, name
                FROM machines
                WHERE code = %s AND is_active = TRUE
                ".

Definition SQL_PRODUCTS : string :=
"
                SELECT p.sku, p.name, p.description,
                       mp.price, mp.currency, p.image_url
                FROM machine_products mp
                JOIN products p ON p.id = mp.product_id
                WHERE mp.machine_id = %s AND mp.is_active = TRUE
                ORDER BY p.name;
                ".

Definition SELECT_MACHINE : query machine_row :=
  {| q_text := SQL_MACHINE; q_answer := st_machines |}.

Definition SELECT_PRODUCTS : query product_row :=
  {| q_text := SQL_PRODUCTS; q_answer := st_products |}.

(** Adaptation of a Python value to a bound parameter. *)
Definition adapt_int (v : option Z) : param :=
  match v with
  | Some z => PInteger z
  | None => PNull
  end.

(** ** Database connection helper *)

Definition get_conn : M connection :=
  dbname <- getenv "DB_NAME" ;;
  user <- getenv "DB_USER" ;;
  password <- getenv "DB_PASSWORD" ;;
  host <- getenv "DB_HOST" ;;
  port <- getenv_default "DB_PORT" "5432" ;;
  conn <- connect {| ci_dbname := dbname; ci_user := user;
                     ci_password := password; ci_host := host;
                     ci_port := port |} ;;
  ret conn.

(** ** Health check *)

Definition health_check : list (string * string) := [("status", "ok")].

(** The arguments [get_conn] passes to the driver. *)
Definition conninfo_of (st : store) : conninfo :=
  {| ci_dbname := st_environ st "DB_NAME";
     ci_user := st_environ st "DB_USER";
     ci_password := st_environ st "DB_PASSWORD";
     ci_host := st_environ st "DB_HOST";
     ci_port := match st_environ st "DB_PORT" with
                | Some v => Some v
                | None => Some "5432"
                end |}.

Section Handler.

(** Python's binary floating-point numbers and the builtin [float]
    applied to a [Decimal]. *)
Variable pyfloat : Type.
Variable float_of_decimal : Decimal -> pyfloat.

(** ** Response models *)

Record ProductOut : Type := mkProductOut {
  po_id : string;
  po_name : string;
  po_description : option string;
  po_price : pyfloat;
  po_currency : string;
  po_image_url : option string
}.

Record MachineProductsResponse : Type := mkMachineProductsResponse {
  machine_id : string;
  machine_name : string;
  products : list ProductOut
}.

(** A field annotated [str] rejects [None]. *)
Definition validate_str (v : option string) : result string :=
  match v with
  | Some s => Ok s
  | None => Raise ValidationError
  end.

(** [float(None)] is a [TypeError]. *)
Definition py_float (v : option Decimal) : result pyfloat :=
  match v with
  | Some d => Ok (float_of_decimal d)
  | None => Raise TypeError
  end.

(** [ProductOut(id=row["sku"], ..., price=float(row["price"]), ...)]:
    the arguments are evaluated first, then the model validates them. *)
Definition ProductOut_of_row (row : product_row) : result ProductOut :=
  rbind (py_float (pr_price row)) (fun price =>
  rbind (validate_str (pr_sku row)) (fun sku =>
  rbind (validate_str (pr_name row)) (fun name =>
  rbind (validate_str (pr_currency row)) (fun currency =>
  Ok {| po_id := sku;
        po_name := name;
        po_description := pr_description row;
        po_price := price;
        po_currency := currency;
        po_image_url := pr_image_url row |})))).

Definition new_MachineProductsResponse (code name : option string)
    (prods : list ProductOut) : result MachineProductsResponse :=
  rbind (validate_str code) (fun code =>
  rbind (validate_str name) (fun name =>
  Ok {| machine_id := code; machine_name := name; products := prods |})).

(** ** The request handler *)

Definition get_machine_products (machine_code : string)
  : M MachineProductsResponse :=
  conn <- get_conn ;;
  try_finally
    (fetched <- with_cursor conn (fun cur =>
        (* Get machine info *)
        cur <- execute cur SELECT_MACHINE [PText machine_code] ;;
        let machine := fetchone cur in
        match machine with
        | None => raise (HTTPException 404 "Machine not found")
        | Some machine =>
            let machine_id_db := mr_id machine in
            let code := mr_code machine in
            let name := mr_name machine in
            (* Get products for machine *)
            cur <- execute cur SELECT_PRODUCTS [adapt_int machine_id_db] ;;
            let rows := fetchall cur in
            ret (code, name, rows)
        end) ;;
     let '(code, name, rows) := fetched in
     prods <- lift (map_result ProductOut_of_row rows) ;;
     lift (new_MachineProductsResponse code name prods))
    (close conn).

(** The response built from the fetched machine row and product rows:
    the list comprehension over [rows], then the response model. *)
Definition build_response (mrow : machine_row) (rows : list product_row)
  : result MachineProductsResponse :=
  rbind (map_result ProductOut_of_row rows) (fun prods =>
  new_MachineProductsResponse (mr_code mrow) (mr_name mrow) prods).

(** ** What the caller of the endpoint sees *)

Inductive http_response : Type :=
| Json200 (body : MachineProductsResponse)
| JsonError (status : Z) (detail : string)
| InternalServerError.

(** The web framework turns an [HTTPException] into a response with
    its status and detail, and any other exception into a bare 500. *)
Definition respond (r : result MachineProductsResponse) : http_response :=
  match r with
  | Ok body => Json200 body
  | Raise (HTTPException status detail) => JsonError status detail
  | Raise _ => InternalServerError
  end.

Definition status_of (h : http_response) : Z :=
  match h with
  | Json200 _ => 200
  | JsonError status _ => status
  | InternalServerError => 500
  end.

End Handler.

Arguments mkProductOut {pyfloat}.
Arguments po_id {pyfloat}.
Arguments po_name {pyfloat}.
Arguments po_description {pyfloat}.
Arguments po_price {pyfloat}.
Arguments po_currency {pyfloat}.
Arguments po_image_url {pyfloat}.
Arguments mkMachineProductsResponse {pyfloat}.
Arguments machine_id {pyfloat}.
Arguments machine_name {pyfloat}.
Arguments products {pyfloat}.
Arguments Json200 {pyfloat}.
Arguments JsonError {pyfloat}.
Arguments InternalServerError {pyfloat}.
Arguments respond {pyfloat}.
Arguments status_of {pyfloat}.
Arguments get_machine_products {pyfloat}.
Arguments ProductOut_of_row {pyfloat}.
Arguments new_MachineProductsResponse {pyfloat}.
Arguments build_response {pyfloat}.
Arguments py_float {pyfloat}.

(** ** The relational store *)

(** Modelled from the spec: the schema of the relation [machines],
    which the repository queries but does not declare. *)
Record machine : Type := mkMachine {
  m_id : Z;
  m_code : string;
  m_name : string;
  m_is_active : bool
}.

(** Modelled from the spec: the schema of the relation [products],
    which the repository queries but does not declare; the columns the
    data model calls optional are nullable. *)
Record product : Type := mkProduct {
  p_id : Z;
  p_sku : string;
  p_name : string;
  p_description : option string;
  p_image_url : option string
}.

(** Modelled from the spec: the schema of the join relation
    [machine_products], which the repository queries but does not
    declare. *)
Record machine_product : Type := mkMachineProduct {
  mp_machine_id : Z;
  mp_product_id : Z;
  mp_price : Decimal;
  mp_currency : string;
  mp_is_active : bool
}.

Record database : Type := mkDatabase {
  tbl_machines : list machine;
  tbl_products : list product;
  tbl_machine_products : list machine_product
}.

(** Failures injected into the driver calls of one request. *)
Record faults : Type := mkFaults {
  fl_connect : option string;
  fl_cursor : option string;
  fl_machines : option string;
  fl_products : option string
}.

Definition no_faults : faults :=
  {| fl_connect := None; fl_cursor := None;
     fl_machines := None; fl_products := None |}.

Section Store.

(** The collation of the store: the order [ORDER BY] sorts text by. *)
Variable name_leb : string -> string -> bool.

Definition key_le {A : Type} (key : A -> string) (x y : A) : Prop :=
  name_leb (key x) (key y) = true.

Fixpoint insert_by {A : Type} (key : A -> string) (x : A) (l : list A)
  : list A :=
  match l with
  | [] => [x]
  | y :: ys =>
      if name_leb (key x) (key y) then x :: y :: ys
      else y :: insert_by key x ys
  end.

(** [ORDER BY key]: rows with equal keys keep the order they had. *)
Definition order_by {A : Type} (key : A -> string) (l : list A) : list A :=
  fold_right (insert_by key) [] l.

(** [WHERE code = %s AND is_active = TRUE] *)
Definition machine_matches (code : string) (m : machine) : bool :=
  String.eqb (m_code m) code && m_is_active m.

(** [SELECT id, code, name] *)
Definition row_of_machine (m : machine) : machine_row :=
  {| mr_id := Some (m_id m);
     mr_code := Some (m_code m);
     mr_name := Some (m_name m) |}.

Definition matching_machines (db : database) (code : string) : list machine :=
  filter (machine_matches code) (tbl_machines db).

(** [FROM machine_products mp JOIN products p ON p.id = mp.product_id] *)
Definition join_products (db : database) : list (machine_product * product) :=
  flat_map
    (fun mp =>
       map (fun p => (mp, p))
           (filter (fun p => p_id p =? mp_product_id mp) (tbl_products db)))
    (tbl_machine_products db).

(** [WHERE mp.machine_id = %s AND mp.is_active = TRUE] *)
Definition offer_matches (mid : Z) (o : machine_product * product) : bool :=
  (mp_machine_id (fst o) =? mid) && mp_is_active (fst o).

(** [SELECT p.sku, p.name, p.description, mp.price, mp.currency,
    p.image_url] *)
Definition row_of_offer (o : machine_product * product) : product_row :=
  {| pr_sku := Some (p_sku (snd o));
     pr_name := Some (p_name (snd o));
     pr_description := p_description (snd o);
     pr_price := Some (mp_price (fst o));
     pr_currency := Some (mp_currency (fst o));
     pr_image_url := p_image_url (snd o) |}.

Definition active_offers (db : database) (mid : Z)
  : list (machine_product * product) :=
  filter (offer_matches mid) (join_products db).

(** [ORDER BY p.name] *)
Definition sorted_offers (db : database) (mid : Z)
  : list (machine_product * product) :=
  order_by (fun o => p_name (snd o)) (active_offers db mid).

(** The first statement, evaluated on a database.  A comparison with
    [NULL] is never true; a parameter list of another shape is
    rejected by the store. *)
Definition select_machine (db : database) (params : list param)
  : string + list machine_row :=
  match params with
  | [PText code] => inr (map row_of_machine (matching_machines db code))
  | [PNull] => inr []
  | _ => inl "invalid parameters"
  end.

(** The second statement, evaluated on a database. *)
Definition select_products (db : database) (params : list param)
  : string + list product_row :=
  match params with
  | [PInteger mid] => inr (map row_of_offer (sorted_offers db mid))
  | [PNull] => inr []
  | _ => inl "invalid parameters"
  end.

Definition with_fault {A : Type} (f : option string) (r : string + A)
  : string + A :=
  match f with
  | Some msg => inl msg
  | None => r
  end.

(** The store a request sees: a database behind a driver that may
    fail at each call. *)
Definition db_store (env : string -> option string) (db : database)
    (fl : faults) : store :=
  {| st_environ := env;
     st_connect := fun _ => fl_connect fl;
     st_cursor := fl_cursor fl;
     st_machines := fun ps => with_fault (fl_machines fl) (select_machine db ps);
     st_products := fun ps => with_fault (fl_products fl) (select_products db ps) |}.

End Store.

Section Views.

Variable pyfloat : Type.
Variable float_of_decimal : Decimal -> pyfloat.

(** The product entry shown for an offer: a pricing row joined to its
    product. *)
Definition product_view (o : machine_product * product) : ProductOut pyfloat :=
  {| po_id := p_sku (snd o);
     po_name := p_name (snd o);
     po_description := p_description (snd o);
     po_price := float_of_decimal (mp_price (fst o));
     po_currency := mp_currency (fst o);
     po_image_url := p_image_url (snd o) |}.

(** A row and the product entry that shows it, field by field. *)
Definition row_shown (row : product_row) (p : ProductOut pyfloat) : Prop :=
  pr_sku row = Some (po_id p) /\
  pr_name row = Some (po_name p) /\
  pr_description row = po_description p /\
  option_map float_of_decimal (pr_price row) = Some (po_price p) /\
  pr_currency row = Some (po_currency p) /\
  pr_image_url row = po_image_url p.

End Views.

Arguments product_view {pyfloat}.
Arguments row_shown {pyfloat}.

(** ** Observations on a trace *)

Definition is_connect (e : event) : bool :=
  match e with
  | EvConnect _ => true
  | _ => false
  end.

Definition is_close (e : event) : bool :=
  match e with
  | EvClose => true
  | _ => false
  end.

(** How many connections the request opened, and how many it closed. *)
Definition connects (tr : list event) : nat := List.length (filter is_connect tr).
Definition closes (tr : list event) : nat := List.length (filter is_close tr).

(** The statements sent, in order, each with its bound parameters. *)
Fixpoint executed (tr : list event) : list (string * list param) :=
  match tr with
  | [] => []
  | EvExecute sql params :: tr' => (sql, params) :: executed tr'
  | _ :: tr' => executed tr'
  end.

Definition sql_texts (tr : list event) : list string := map fst (executed tr).

(** The driver failed at a call the request reached. *)
Definition store_fails (st : store) (machine_code : string) : Prop :=
  st_connect st (conninfo_of st) <> None \/
  st_cursor st <> None \/
  (exists msg, st_machines st [PText machine_code] = inl msg) \/
  (exists mrow rest msg,
      st_machines st [PText machine_code] = inr (mrow :: rest) /\
      st_products st [adapt_int (mr_id mrow)] = inl msg).

(** Two stores answer one request alike: they give the same answer to
    each call the request makes, the connection, then the cursor, then
    the machine statement, then the products statement for the id of
    the fetched row.  Calls the request does not make are not
    compared, nor is the environment. *)
Definition same_answers (machine_code : string) (st1 st2 : store) : Prop :=
  st_connect st1 (conninfo_of st1) = st_connect st2 (conninfo_of st2) /\
  (st_connect st1 (conninfo_of st1) = None ->
   st_cursor st1 = st_cursor st2 /\
   (st_cursor st1 = None ->
    st_machines st1 [PText machine_code] =
      st_machines st2 [PText machine_code] /\
    forall mrow rest,
      st_machines st1 [PText machine_code] = inr (mrow :: rest) ->
      st_products st1 [adapt_int (mr_id mrow)] =
        st_products st2 [adapt_int (mr_id mrow)])).

(** ** A worked scenario *)

Module Scenario.

Definition env (key : string) : option string :=
  if String.eqb key "DB_NAME" then Some "vendswift"
  else if String.eqb key "DB_HOST" then Some "db.internal"
  else None.

Definition env_replica (key : string) : option string :=
  if String.eqb key "DB_NAME" then Some "vendswift"
  else if String.eqb key "DB_HOST" then Some "replica.internal"
  else if String.eqb key "DB_PORT" then Some "6432"
  else None.

(** Machine M12 sells two products whose order by name is the reverse
    of their order by SKU; M13 is switched off; M14 sells nothing;
    M15 has two active pricing rows for the same product. *)
Definition db : database :=
  {| tbl_machines :=
       [ {| m_id := 7; m_code := "M12"; m_name := "Lobby Vendor";
            m_is_active := true |};
         {| m_id := 8; m_code := "M13"; m_name := "Basement Vendor";
            m_is_active := false |};
         {| m_id := 9; m_code := "M14"; m_name := "Roof Vendor";
            m_is_active := true |};
         {| m_id := 10; m_code := "M15"; m_name := "Yard Vendor";
            m_is_active := true |} ];
     tbl_products :=
       [ {| p_id := 1; p_sku := "A-330"; p_name := "Zesty Cola";
            p_description := Some "330 ml can"; p_image_url := None |};
         {| p_id := 2; p_sku := "Z-45"; p_name := "Crisps";
            p_description := None; p_image_url := Some "crisps.png" |};
         {| p_id := 3; p_sku := "GUM-1"; p_name := "Gum";
            p_description := None; p_image_url := None |} ];
     tbl_machine_products :=
       [ {| mp_machine_id := 7; mp_product_id := 1;
            mp_price := mkDecimal 150 (-2); mp_currency := "USD";
            mp_is_active := true |};
         {| mp_machine_id := 7; mp_product_id := 2;
            mp_price := mkDecimal 225 (-2); mp_currency := "USD";
            mp_is_active := true |};
         {| mp_machine_id := 7; mp_product_id := 3;
            mp_price := mkDecimal 100 (-2); mp_currency := "USD";
            mp_is_active := false |};
         {| mp_machine_id := 8; mp_product_id := 3;
            mp_price := mkDecimal 100 (-2); mp_currency := "USD";
            mp_is_active := true |};
         {| mp_machine_id := 10; mp_product_id := 3;
            mp_price := mkDecimal 100 (-2); mp_currency := "USD";
            mp_is_active := true |};
         {| mp_machine_id := 10; mp_product_id := 3;
            mp_price := mkDecimal 120 (-2); mp_currency := "USD";
            mp_is_active := true |} ] |}.

(** The scenario keeps prices exact: its float is the decimal read. *)
Definition exact (d : Decimal) : Decimal := d.

Definition live : store := db_store String.leb env db no_faults.

Definition replica : store := db_store String.leb env_replica db no_faults.

(** The server drops the connection during the second statement. *)
Definition dropped : store :=
  db_store String.leb env db
    {| fl_connect := None; fl_cursor := None; fl_machines := None;
       fl_products := Some "server closed the connection unexpectedly" |}.

Definition request (machine_code : string) (st : store)
  : result (MachineProductsResponse Decimal) * list event :=
  get_machine_products exact machine_code st.

End Scenario.

(** ** Rows the response models accept *)

(** The columns [ProductOut] needs: [price] for [float], and the
    fields annotated [str]. *)
Definition row_valid (row : product_row) : bool :=
  match pr_price row, pr_sku row, pr_name row, pr_currency row with
  | Some _, Some _, Some _, Some _ => true
  | _, _, _, _ => false
  end.

(** The columns [MachineProductsResponse] needs. *)
Definition machine_row_valid (mrow : machine_row) : bool :=
  match mr_code mrow, mr_name mrow with
  | Some _, Some _ => true
  | _, _ => false
  end.

(** The driver call that sends a statement. *)
Definition sent (q : string * list param) : event :=
  EvExecute (fst q) (snd q).

(** ** Stores that answer with unusual rows *)

Module Edge.

Definition lobby : machine_row :=
  {| mr_id := Some 7; mr_code := Some "M12"; mr_name := Some "Lobby Vendor" |}.

Definition annex : machine_row :=
  {| mr_id := Some 70; mr_code := Some "M12"; mr_name := Some "Annex Vendor" |}.

(** A row whose stored code differs in case from the code asked for,
    as a case-insensitive column would return it. *)
Definition lowercase : machine_row :=
  {| mr_id := Some 7; mr_code := Some "m12"; mr_name := Some "Lobby Vendor" |}.

Definition nameless : machine_row :=
  {| mr_id := Some 7; mr_code := Some "M12"; mr_name := None |}.

Definition cola : product_row :=
  {| pr_sku := Some "A-330"; pr_name := Some "Zesty Cola";
     pr_description := None; pr_price := Some (mkDecimal 150 (-2));
     pr_currency := Some "USD"; pr_image_url := None |}.

(** Neither a currency nor a price: [float] fails first. *)
Definition unpriced : product_row :=
  {| pr_sku := Some "Z-45"; pr_name := Some "Crisps";
     pr_description := None; pr_price := None;
     pr_currency := None; pr_image_url := None |}.

Definition unnamed : product_row :=
  {| pr_sku := Some "GUM-1"; pr_name := None;
     pr_description := None; pr_price := Some (mkDecimal 100 (-2));
     pr_currency := Some "USD"; pr_image_url := None |}.

Definition answering (machines : list machine_row)
    (prods : list product_row) : store :=
  {| st_environ := Scenario.env;
     st_connect := fun _ => None;
     st_cursor := None;
     st_machines := fun _ => inr machines;
     st_products := fun _ => inr prods |}.

(** A store that knows the products of machine 7 only, and fails for
    any other id. *)
Definition picky : store :=
  {| st_environ := Scenario.env_replica;
     st_connect := fun _ => None;
     st_cursor := None;
     st_machines := fun _ => inr [lobby];
     st_products := fun ps =>
       match ps with
       | [PInteger 7] => inr [cola]
       | _ => inl "no such machine"
       end |}.

Definition refused : store :=
  db_store String.leb Scenario.env Scenario.db
    {| fl_connect := Some "could not connect to server";
       fl_cursor := None; fl_machines := None; fl_products := None |}.

End Edge.

(** ** The price as a binary64 number *)

(** [float(d)] for a [Decimal] [d]: the binary64 number nearest to the
    decimal value, ties to the even mantissa, as the IEEE 754 division
    of the coefficient by a power of ten (or, for a positive exponent,
    the rounding of the integer the decimal denotes).  A value too
    large becomes an infinity, one too small a subnormal or zero. *)
Definition binary64_div (s : bool) (m : positive) (k : Z) : spec_float :=
  SFdiv 53 1024 (S754_finite s m 0) (S754_finite false (Z.to_pos (10 ^ k)) 0).

Definition float_binary64 (d : Decimal) : spec_float :=
  let e := dec_exponent d in
  match dec_coefficient d with
  | Z0 => S754_zero false
  | Zpos m =>
      if 0 <? e then binary_normalize 53 1024 (Zpos m * 10 ^ e) 0 false
      else binary64_div false m (- e)
  | Zneg m =>
      if 0 <? e then binary_normalize 53 1024 (Zneg m * 10 ^ e) 0 false
      else binary64_div true m (- e)
  end.

(** A price as a [numeric] column yields it: written with at most [n]
    digits and with up to 290 decimal places. *)
Definition stored_price (n : Z) (d : Decimal) : Prop :=
  Z.abs (dec_coefficient d) < 10 ^ n /\ -290 <= dec_exponent d <= 0.

(** Two decimals denote the same number, as 12.50 and 12.5 do. *)
Definition same_value (d1 d2 : Decimal) : Prop :=
  let e := Z.min (dec_exponent d1) (dec_exponent d2) in
  dec_coefficient d1 * 10 ^ (dec_exponent d1 - e) =
  dec_coefficient d2 * 10 ^ (dec_exponent d2 - e).

(** The real [N / D] lies in the unit interval that starts at [q], at
    the place the location [l] says. *)
Definition located (q : Z) (l : location) (N D : Z) : Prop :=
  match l with
  | loc_Exact => N = q * D
  | loc_Inexact Lt => q * D < N /\ 2 * N < (2 * q + 1) * D
  | loc_Inexact Eq => 2 * N = (2 * q + 1) * D
  | loc_Inexact Gt => (2 * q + 1) * D < 2 * N /\ N < (q + 1) * D
  end.

Definition sticky (l : location) : bool :=
  match l with
  | loc_Exact => false
  | loc_Inexact _ => true
  end.

(** ** Requests served one after another *)

Section Serving.

Variable pyfloat : Type.
Variable float_of_decimal : Decimal -> pyfloat.

(** The application answers its requests in turn, each against the
    store as it answers at that time; the log collects the driver
    calls of all of them. *)
Fixpoint serve (reqs : list (string * store))
  : list (result (MachineProductsResponse pyfloat)) * list event :=
  match reqs with
  | [] => ([], [])
  | req :: rest =>
      let (r, tr) := get_machine_products float_of_decimal (fst req) (snd req) in
      let (rs, trs) := serve rest in
      (r :: rs, tr ++ trs)
  end.

End Serving.

Arguments serve {pyfloat}.

(** ** Parameters the driver refuses *)

(** The driver does not adapt a string that holds a NUL character: it
    raises inside [execute], before the store sees the statement. *)
Fixpoint has_nul (s : string) : bool :=
  match s with
  | EmptyString => false
  | String c s' => Ascii.eqb c Ascii.zero || has_nul s'
  end.

(** * Properties *)

(** ** Facts about the pure fragment *)

Section PureFacts.

Context {A B : Type}.

Lemma map_result_ok (f : A -> result B) (l : list A) (l' : list B) :
  map_result f l = Ok l' -> Forall2 (fun x y => f x = Ok y) l l'.
Proof.
  revert l'. induction l as [| x xs IH]; intros l' H; simpl in H.
  - injection H as <-. constructor.
  - destruct (f x) as [y | e] eqn:Hx; simpl in H; [| discriminate].
    destruct (map_result f xs) as [ys | e] eqn:Hxs; simpl in H; [| discriminate].
    injection H as <-. constructor; auto.
Qed.

End PureFacts.

(** ** One request, call by call *)

Section Run.

Variable pyfloat : Type.
Variable float_of_decimal : Decimal -> pyfloat.

Abbreviation handler := (get_machine_products float_of_decimal).

Lemma get_conn_run (st : store) :
  get_conn st =
  match st_connect st (conninfo_of st) with
  | Some msg => (Raise (DatabaseError msg), [EvConnect (conninfo_of st)])
  | None => (Ok Conn, [EvConnect (conninfo_of st)])
  end.
Proof.
  unfold get_conn, getenv, getenv_default, connect, bind, ask, ret, emit,
    raise, conninfo_of.
  simpl.
  destruct (st_connect st _); reflexivity.
Qed.

(** Every run of the handler, by the answers of the store. *)
Lemma get_machine_products_run (machine_code : string) (st : store) :
  handler machine_code st =
  let ci := conninfo_of st in
  let q1 := EvExecute SQL_MACHINE [PText machine_code] in
  match st_connect st ci with
  | Some msg => (Raise (DatabaseError msg), [EvConnect ci])
  | None =>
    match st_cursor st with
    | Some msg => (Raise (DatabaseError msg), [EvConnect ci; EvCursor; EvClose])
    | None =>
      match st_machines st [PText machine_code] with
      | inl msg =>
          (Raise (DatabaseError msg),
           [EvConnect ci; EvCursor; q1; EvCursorClose; EvClose])
      | inr [] =>
          (Raise (HTTPException 404 "Machine not found"),
           [EvConnect ci; EvCursor; q1; EvCursorClose; EvClose])
      | inr (mrow :: _) =>
          let q2 := EvExecute SQL_PRODUCTS [adapt_int (mr_id mrow)] in
          match st_products st [adapt_int (mr_id mrow)] with
          | inl msg =>
              (Raise (DatabaseError msg),
               [EvConnect ci; EvCursor; q1; q2; EvCursorClose; EvClose])
          | inr rows =>
              (build_response float_of_decimal mrow rows,
               [EvConnect ci; EvCursor; q1; q2; EvCursorClose; EvClose])
          end
      end
    end
  end.
Proof.
  unfold get_machine_products.
  unfold bind at 1. rewrite get_conn_run.
  destruct (st_connect st (conninfo_of st)) as [msg |]; [reflexivity |].
  unfold with_cursor, close, execute, fetchone, fetchall, build_response.
  unfold try_finally, bind, ask, ret, emit, raise, lift.
  simpl.
  destruct (st_cursor st) as [msg |]; [reflexivity |].
  simpl.
  destruct (st_machines st [PText machine_code]) as [msg | [| mrow rest]];
    simpl; try reflexivity.
  destruct (st_products st [adapt_int (mr_id mrow)]) as [msg | rows];
    simpl; try reflexivity.
  destruct (map_result (ProductOut_of_row float_of_decimal) rows);
    simpl; reflexivity.
Qed.

End Run.

(** ** The store's [ORDER BY] *)

Section OrderBy.

Variable name_leb : string -> string -> bool.
Hypothesis name_leb_total :
  forall a b, name_leb a b = true \/ name_leb b a = true.
Hypothesis name_leb_trans :
  forall a b c, name_leb a b = true -> name_leb b c = true ->
                name_leb a c = true.

Context {A : Type} (key : A -> string).

Lemma insert_by_perm (x : A) (l : list A) :
  Permutation (x :: l) (insert_by name_leb key x l).
Proof.
  induction l as [| y ys IH]; simpl.
  - apply Permutation_refl.
  - destruct (name_leb (key x) (key y)).
    + apply Permutation_refl.
    + apply perm_trans with (y :: x :: ys).
      * apply perm_swap.
      * apply perm_skip. exact IH.
Qed.

Lemma order_by_perm (l : list A) : Permutation l (order_by name_leb key l).
Proof.
  induction l as [| x xs IH]; simpl.
  - apply perm_nil.
  - apply perm_trans with (x :: order_by name_leb key xs).
    + apply perm_skip. exact IH.
    + apply insert_by_perm.
Qed.

Lemma order_by_length (l : list A) :
  List.length (order_by name_leb key l) = List.length l.
Proof. symmetry. apply Permutation_length, order_by_perm. Qed.

Lemma insert_by_hd (a x : A) (l : list A) :
  key_le name_leb key a x ->
  HdRel (key_le name_leb key) a l ->
  HdRel (key_le name_leb key) a (insert_by name_leb key x l).
Proof.
  intros Hax Hal. destruct l as [| y ys]; simpl.
  - constructor. exact Hax.
  - destruct (name_leb (key x) (key y)); constructor.
    + exact Hax.
    + apply HdRel_inv in Hal. exact Hal.
Qed.

Lemma insert_by_sorted (x : A) (l : list A) :
  Sorted (key_le name_leb key) l ->
  Sorted (key_le name_leb key) (insert_by name_leb key x l).
Proof.
  induction l as [| y ys IH]; intros Hs; simpl.
  - repeat constructor.
  - destruct (name_leb (key x) (key y)) eqn:Hxy.
    + constructor; [exact Hs | constructor; exact Hxy].
    + apply Sorted_inv in Hs. destruct Hs as [Hs Hhd].
      constructor.
      * apply IH. exact Hs.
      * apply insert_by_hd; [| exact Hhd].
        destruct (name_leb_total (key x) (key y)) as [H | H].
        -- rewrite H in Hxy. discriminate.
        -- exact H.
Qed.

Lemma order_by_sorted (l : list A) :
  Sorted (key_le name_leb key) (order_by name_leb key l).
Proof.
  induction l as [| x xs IH]; simpl.
  - constructor.
  - apply insert_by_sorted. exact IH.
Qed.

Lemma order_by_strongly_sorted (l : list A) :
  StronglySorted (key_le name_leb key) (order_by name_leb key l).
Proof.
  apply Sorted_StronglySorted.
  - intros a b c Hab Hbc. unfold key_le in *. eapply name_leb_trans; eauto.
  - apply order_by_sorted.
Qed.

End OrderBy.

Lemma StronglySorted_map {A B : Type} (R : B -> B -> Prop) (f : A -> B)
    (l : list A) :
  StronglySorted (fun x y => R (f x) (f y)) l -> StronglySorted R (map f l).
Proof.
  induction 1 as [| x xs Hs IH Hall]; simpl; constructor.
  - exact IH.
  - rewrite Forall_forall in *. intros y Hy.
    apply in_map_iff in Hy. destruct Hy as [z [<- Hz]]. apply Hall, Hz.
Qed.

(** ** The statements on a database *)

Lemma matching_machines_head (db : database) (code : string) (m : machine)
    (rest : list machine) :
  matching_machines db code = m :: rest ->
  In m (tbl_machines db) /\ m_code m = code /\ m_is_active m = true.
Proof.
  intros H.
  assert (Hin : In m (matching_machines db code)) by (rewrite H; left; reflexivity).
  unfold matching_machines in Hin. apply filter_In in Hin.
  destruct Hin as [Hin Hm]. unfold machine_matches in Hm.
  apply andb_true_iff in Hm. destruct Hm as [Hc Ha].
  apply String.eqb_eq in Hc. auto.
Qed.

Lemma matching_machines_nil (db : database) (code : string) :
  matching_machines db code = [] <->
  (forall m, In m (tbl_machines db) -> m_code m = code -> m_is_active m = false).
Proof.
  unfold matching_machines. split.
  - intros H m Hin Hc.
    destruct (m_is_active m) eqn:Ha; [| reflexivity].
    assert (Hf : In m (filter (machine_matches code) (tbl_machines db))).
    { apply filter_In. split; [exact Hin |].
      unfold machine_matches. rewrite Ha, Hc, String.eqb_refl. reflexivity. }
    rewrite H in Hf. destruct Hf.
  - intros H. induction (tbl_machines db) as [| m ms IH]; simpl.
    + reflexivity.
    + unfold machine_matches at 1.
      destruct (String.eqb (m_code m) code) eqn:Hc; simpl.
      * apply String.eqb_eq in Hc.
        rewrite (H m (or_introl eq_refl) Hc).
        apply IH. intros m' Hin. apply H. right. exact Hin.
      * apply IH. intros m' Hin. apply H. right. exact Hin.
Qed.

Lemma active_offers_spec (db : database) (mid : Z)
    (o : machine_product * product) :
  In o (active_offers db mid) <->
  In (fst o) (tbl_machine_products db) /\ In (snd o) (tbl_products db) /\
  p_id (snd o) = mp_product_id (fst o) /\
  mp_machine_id (fst o) = mid /\ mp_is_active (fst o) = true.
Proof.
  unfold active_offers, join_products, offer_matches.
  rewrite filter_In, in_flat_map, andb_true_iff, Z.eqb_eq.
  destruct o as [mp p]; simpl. split.
  - intros [[mp' [Hmp Hin]] [Hmid Hact]].
    apply in_map_iff in Hin. destruct Hin as [p' [Heq Hp]].
    injection Heq as <- <-. apply filter_In in Hp. destruct Hp as [Hp Hid].
    apply Z.eqb_eq in Hid. auto.
  - intros [Hmp [Hp [Hid [Hmid Hact]]]]. split; [| auto].
    exists mp. split; [exact Hmp |].
    apply in_map_iff. exists p. split; [reflexivity |].
    apply filter_In. split; [exact Hp |]. apply Z.eqb_eq. exact Hid.
Qed.

Lemma SQL_MACHINE_neq_SQL_PRODUCTS : SQL_MACHINE <> SQL_PRODUCTS.
Proof.
  intros H. apply String.eqb_eq in H. vm_compute in H. discriminate.
Qed.

(** Case analysis on the answers of the store, along the run. *)
Ltac run_cases st code :=
  rewrite (get_machine_products_run _ _ code st); cbv zeta;
  let msg := fresh "msg" in
  let mrow := fresh "mrow" in
  let rest := fresh "rest" in
  let rows := fresh "rows" in
  let Hconn := fresh "Hconn" in
  let Hcur := fresh "Hcur" in
  let Hq1 := fresh "Hq1" in
  let Hq2 := fresh "Hq2" in
  destruct (st_connect st (conninfo_of st)) as [msg |] eqn:Hconn;
  [| destruct (st_cursor st) as [msg |] eqn:Hcur;
     [| destruct (st_machines st [PText code])
          as [msg | [| mrow rest]] eqn:Hq1;
        [| | destruct (st_products st [adapt_int (mr_id mrow)])
               as [msg | rows] eqn:Hq2]]].

Section HandlerClaims.

Variable pyfloat : Type.
Variable float_of_decimal : Decimal -> pyfloat.

Abbreviation handler := (get_machine_products float_of_decimal).

(** A successful request fetched a machine row and product rows, and
    its response is built from them. *)
Lemma success_inv (st : store) (machine_code : string)
    (resp : MachineProductsResponse pyfloat) (tr : list event) :
  handler machine_code st = (Ok resp, tr) ->
  exists mrow rest rows,
    st_machines st [PText machine_code] = inr (mrow :: rest) /\
    st_products st [adapt_int (mr_id mrow)] = inr rows /\
    build_response float_of_decimal mrow rows = Ok resp.
Proof.
  run_cases st machine_code; intros H; try discriminate.
  injection H as H _. exists mrow, rest, rows. auto.
Qed.

Lemma build_response_inv (mrow : machine_row) (rows : list product_row)
    (resp : MachineProductsResponse pyfloat) :
  build_response float_of_decimal mrow rows = Ok resp ->
  mr_code mrow = Some (machine_id resp) /\
  mr_name mrow = Some (machine_name resp) /\
  map_result (ProductOut_of_row float_of_decimal) rows = Ok (products resp).
Proof.
  unfold build_response, new_MachineProductsResponse, validate_str.
  destruct (map_result _ rows) as [prods | e]; simpl; [| discriminate].
  destruct (mr_code mrow) as [c |]; simpl; [| discriminate].
  destruct (mr_name mrow) as [n |]; simpl; [| discriminate].
  intros H. injection H as <-. simpl. auto.
Qed.

(** C5.  Whenever the connection was acquired, the request closes it
    exactly once, and the close is the last driver call of the
    request: this holds when the response is built, on the 404 path,
    and when the cursor or either statement fails. *)
Theorem connection_closed_exactly_once (st : store) (machine_code : string) :
  st_connect st (conninfo_of st) = None ->
  connects (snd (handler machine_code st)) = 1%nat /\
  closes (snd (handler machine_code st)) = 1%nat /\
  last (snd (handler machine_code st)) EvCursor = EvClose.
Proof.
  intros Hacq. run_cases st machine_code; try discriminate;
    simpl; auto.
Qed.

(** When the driver refuses the connection there is nothing to close,
    and nothing is closed. *)
Lemma nothing_closed_without_connection (st : store) (machine_code : string) :
  st_connect st (conninfo_of st) <> None ->
  closes (snd (handler machine_code st)) = 0%nat /\
  executed (snd (handler machine_code st)) = [].
Proof.
  intros Hrefused. run_cases st machine_code; try congruence.
  simpl. auto.
Qed.

(** C6.  When the driver fails at a call the request reaches (the
    connection, the cursor, or either statement), the handler raises
    the driver's error, which the caller sees as a bare 500: not a
    404, no body.  One connection was attempted and no statement was
    sent twice. *)
Theorem store_failure_is_internal_error (st : store) (machine_code : string) :
  store_fails st machine_code ->
  (exists msg, fst (handler machine_code st) = Raise (DatabaseError msg)) /\
  respond (fst (handler machine_code st)) = InternalServerError /\
  status_of (respond (fst (handler machine_code st))) <> 404 /\
  connects (snd (handler machine_code st)) = 1%nat /\
  NoDup (sql_texts (snd (handler machine_code st))).
Proof.
  assert (Hnd1 : NoDup [SQL_MACHINE]) by (repeat constructor; simpl; tauto).
  assert (Hnd2 : NoDup [SQL_MACHINE; SQL_PRODUCTS]).
  { repeat constructor; simpl; try tauto.
    intros [H | []]. apply SQL_MACHINE_neq_SQL_PRODUCTS. symmetry. exact H. }
  intros Hfail. run_cases st machine_code; simpl.
  1-3, 5: repeat split; eauto; try discriminate; constructor.
  - exfalso. destruct Hfail as [H | [H | [[m H] | [r [rs [m [H _]]]]]]];
      congruence.
  - exfalso. destruct Hfail as [H | [H | [[m H] | [r [rs [m [H H']]]]]]];
      congruence.
Qed.

(** C7.  The request sends at most two statements, and their texts are
    the two constants [SQL_MACHINE] and [SQL_PRODUCTS], in this order;
    the machine code appears only as the bound parameter of the first.
    For any two requests, whatever their machine codes and stores,
    the i-th statements have the same text. *)
Theorem sql_text_independent_of_machine_code (st : store)
    (machine_code : string) :
  (executed (snd (handler machine_code st)) = [] \/
   executed (snd (handler machine_code st)) =
     [(SQL_MACHINE, [PText machine_code])] \/
   exists v, executed (snd (handler machine_code st)) =
     [(SQL_MACHINE, [PText machine_code]); (SQL_PRODUCTS, [adapt_int v])]) /\
  (forall (st' : store) (machine_code' : string) (i : nat) (s s' : string),
      nth_error (sql_texts (snd (handler machine_code st))) i = Some s ->
      nth_error (sql_texts (snd (handler machine_code' st'))) i = Some s' ->
      s = s').
Proof.
  assert (Hshape : forall st0 code0,
    sql_texts (snd (handler code0 st0)) = [] \/
    sql_texts (snd (handler code0 st0)) = [SQL_MACHINE] \/
    sql_texts (snd (handler code0 st0)) = [SQL_MACHINE; SQL_PRODUCTS]).
  { intros st0 code0. run_cases st0 code0; simpl; auto. }
  split.
  - run_cases st machine_code; simpl; eauto.
  - intros st' code' i s s' Hi Hi'.
    destruct (Hshape st machine_code) as [H | [H | H]];
      destruct (Hshape st' code') as [H' | [H' | H']];
      rewrite H in Hi; rewrite H' in Hi';
      destruct i as [| [| [| i]]]; simpl in Hi, Hi'; congruence.
Qed.

(** C9.  A successful response lists the rows of the products
    statement one for one and in the order the store returned them:
    the i-th product is the model built from the i-th row.  Nothing
    is dropped or merged, so a row returned twice is listed twice. *)
Theorem rows_mapped_one_for_one (st : store) (machine_code : string)
    (resp : MachineProductsResponse pyfloat) (tr : list event) :
  handler machine_code st = (Ok resp, tr) ->
  exists mrow rest rows,
    st_machines st [PText machine_code] = inr (mrow :: rest) /\
    st_products st [adapt_int (mr_id mrow)] = inr rows /\
    List.length (products resp) = List.length rows /\
    Forall2 (fun row p => ProductOut_of_row float_of_decimal row = Ok p)
            rows (products resp).
Proof.
  intros H. apply success_inv in H.
  destruct H as [mrow [rest [rows [Hq1 [Hq2 Hb]]]]].
  apply build_response_inv in Hb. destruct Hb as [_ [_ Hmap]].
  apply map_result_ok in Hmap.
  exists mrow, rest, rows. repeat split; auto.
  symmetry. eapply Forall2_length. exact Hmap.
Qed.

Lemma serve_app (l1 l2 : list (string * store)) :
  serve float_of_decimal (l1 ++ l2) =
  (fst (serve float_of_decimal l1) ++ fst (serve float_of_decimal l2),
   snd (serve float_of_decimal l1) ++ snd (serve float_of_decimal l2)).
Proof.
  induction l1 as [| req l1 IH]; simpl.
  - destruct (serve float_of_decimal l2). reflexivity.
  - rewrite IH.
    destruct (handler (fst req) (snd req)) as [r tr].
    destruct (serve float_of_decimal l1) as [rs trs].
    destruct (serve float_of_decimal l2) as [rs' trs']. simpl.
    rewrite app_assoc. reflexivity.
Qed.

Lemma serve_length (l : list (string * store)) :
  List.length (fst (serve float_of_decimal l)) = List.length l.
Proof.
  induction l as [| req l IH]; simpl; [reflexivity |].
  destruct (handler (fst req) (snd req)) as [r tr].
  destruct (serve float_of_decimal l) as [rs trs]. simpl in *.
  rewrite IH. reflexivity.
Qed.

Lemma serve_nth (before after : list (string * store))
    (machine_code : string) (st : store) :
  nth_error (fst (serve float_of_decimal
                    (before ++ (machine_code, st) :: after)))
            (List.length before) =
  Some (fst (handler machine_code st)).
Proof.
  rewrite serve_app. cbn [fst].
  rewrite nth_error_app2 by (rewrite serve_length; apply Nat.le_refl).
  rewrite serve_length, Nat.sub_diag. simpl.
  destruct (handler machine_code st) as [r tr].
  destruct (serve float_of_decimal after) as [rs trs]. reflexivity.
Qed.


End HandlerClaims.

(** ** Requests against a database *)

Section DatabaseClaims.

Variable pyfloat : Type.
Variable float_of_decimal : Decimal -> pyfloat.
Variable name_leb : string -> string -> bool.

Abbreviation handler := (get_machine_products float_of_decimal).

Lemma ProductOut_of_row_shown (row : product_row) (p : ProductOut pyfloat) :
  ProductOut_of_row float_of_decimal row = Ok p ->
  row_shown float_of_decimal row p.
Proof.
  unfold ProductOut_of_row, py_float, validate_str, row_shown.
  destruct (pr_price row) as [d |]; simpl; [| discriminate].
  destruct (pr_sku row) as [sku |]; simpl; [| discriminate].
  destruct (pr_name row) as [name |]; simpl; [| discriminate].
  destruct (pr_currency row) as [cur |]; simpl; [| discriminate].
  intros H. injection H as <-. simpl. repeat split; reflexivity.
Qed.

Lemma map_result_offers (l : list (machine_product * product)) :
  map_result (ProductOut_of_row float_of_decimal) (map row_of_offer l) =
  Ok (map (product_view float_of_decimal) l).
Proof.
  induction l as [| o os IH]; simpl.
  - reflexivity.
  - rewrite IH. reflexivity.
Qed.

(** The request for a code that resolves to machine [m], with no
    failure of the driver. *)
Lemma db_store_run_found (env : string -> option string) (db : database)
    (machine_code : string) (m : machine) :
  hd_error (matching_machines db machine_code) = Some m ->
  handler machine_code (db_store name_leb env db no_faults) =
  (Ok {| machine_id := m_code m;
         machine_name := m_name m;
         products := map (product_view float_of_decimal)
                         (sorted_offers name_leb db (m_id m)) |},
   [EvConnect (conninfo_of (db_store name_leb env db no_faults));
    EvCursor;
    EvExecute SQL_MACHINE [PText machine_code];
    EvExecute SQL_PRODUCTS [PInteger (m_id m)];
    EvCursorClose; EvClose]).
Proof.
  intros Hm. rewrite get_machine_products_run. cbv zeta. simpl.
  destruct (matching_machines db machine_code) as [| m' ms]; simpl in *;
    [discriminate |].
  injection Hm as ->. simpl.
  unfold build_response. simpl. rewrite map_result_offers. reflexivity.
Qed.

(** C1.  A successful response carries, as [machine_id], the scan code
    of the machine the first statement resolved, which is the code in
    the request, and as [machine_name] that machine's stored name.
    The internal id is not what is shown: however it is rendered as
    text, when the rendering differs from the code, [machine_id]
    differs from it. *)
Theorem machine_id_is_scan_code (env : string -> option string)
    (db : database) (fl : faults) (machine_code : string)
    (resp : MachineProductsResponse pyfloat) (tr : list event) :
  handler machine_code (db_store name_leb env db fl) = (Ok resp, tr) ->
  exists m,
    hd_error (matching_machines db machine_code) = Some m /\
    In m (tbl_machines db) /\ m_is_active m = true /\
    m_code m = machine_code /\
    machine_id resp = m_code m /\
    machine_name resp = m_name m /\
    (forall render : Z -> string,
        render (m_id m) <> m_code m -> machine_id resp <> render (m_id m)).
Proof.
  intros H. apply success_inv in H.
  destruct H as [mrow [rest [rows [Hq1 [_ Hb]]]]].
  apply build_response_inv in Hb. destruct Hb as [Hcode [Hname _]].
  simpl in Hq1. destruct (fl_machines fl); simpl in Hq1; [discriminate |].
  injection Hq1 as Hq1.
  destruct (matching_machines db machine_code) as [| m ms] eqn:Hmm;
    simpl in Hq1; [discriminate |].
  injection Hq1 as <- _. simpl in Hcode, Hname.
  injection Hcode as Hcode. injection Hname as Hname.
  destruct (matching_machines_head _ _ _ _ Hmm) as [Hin [Hc Ha]].
  exists m. repeat split; auto.
  intros render Hne Heq. apply Hne. congruence.
Qed.

(** C2.  When the machine statement returns no row, the request fails
    with 404 and detail "Machine not found", and the machine statement
    is the only one sent.  On a database the statement returns no row
    exactly for the codes without an active machine, so a code whose
    machines are all inactive is answered like an unknown code. *)
Theorem not_found_on_zero_rows :
  (forall (st : store) (machine_code : string),
      st_connect st (conninfo_of st) = None ->
      st_cursor st = None ->
      st_machines st [PText machine_code] = inr [] ->
      fst (handler machine_code st) =
        Raise (HTTPException 404 "Machine not found") /\
      respond (fst (handler machine_code st)) =
        JsonError 404 "Machine not found" /\
      executed (snd (handler machine_code st)) =
        [(SQL_MACHINE, [PText machine_code])]) /\
  (forall (env : string -> option string) (db : database) (fl : faults)
          (machine_code : string),
      fl_machines fl = None ->
      (forall m, In m (tbl_machines db) -> m_code m = machine_code ->
                 m_is_active m = false) ->
      st_machines (db_store name_leb env db fl) [PText machine_code] = inr []).
Proof.
  split.
  - intros st code Hconn Hcur Hq1.
    rewrite get_machine_products_run. cbv zeta.
    rewrite Hconn, Hcur, Hq1. simpl. auto.
  - intros env db fl code Hfl Hnone. simpl. rewrite Hfl. simpl.
    apply matching_machines_nil in Hnone. rewrite Hnone. reflexivity.
Qed.

(** C4.  An active machine whose products statement returns no row is
    answered with a 200 response whose product list is empty. *)
Theorem empty_catalogue_is_success (env : string -> option string)
    (db : database) (machine_code : string) (m : machine) :
  hd_error (matching_machines db machine_code) = Some m ->
  st_products (db_store name_leb env db no_faults) [PInteger (m_id m)]
    = inr [] ->
  fst (handler machine_code (db_store name_leb env db no_faults)) =
    Ok {| machine_id := m_code m; machine_name := m_name m; products := [] |} /\
  status_of (respond (fst (handler machine_code
                             (db_store name_leb env db no_faults)))) = 200.
Proof.
  intros Hm Hrows. rewrite (db_store_run_found env db machine_code m Hm).
  simpl in Hrows. injection Hrows as Hrows.
  apply map_eq_nil in Hrows. rewrite Hrows. simpl. auto.
Qed.

Section Sorted.

Hypothesis name_leb_total :
  forall a b, name_leb a b = true \/ name_leb b a = true.
Hypothesis name_leb_trans :
  forall a b c, name_leb a b = true -> name_leb b c = true ->
                name_leb a c = true.

(** C3.  For an active machine whose products statement returns the
    rows [rows], the response lists as many products as there are
    rows, the i-th product showing the i-th row (its [id] is the
    row's sku); the list is in ascending order of product name under
    the collation of the store; and it holds exactly the machine's
    active offers. *)
Theorem products_sorted_by_name (env : string -> option string)
    (db : database) (machine_code : string) (m : machine)
    (rows : list product_row) :
  hd_error (matching_machines db machine_code) = Some m ->
  st_products (db_store name_leb env db no_faults) [PInteger (m_id m)]
    = inr rows ->
  exists resp,
    fst (handler machine_code (db_store name_leb env db no_faults))
      = Ok resp /\
    List.length (products resp) = List.length rows /\
    Forall2 (row_shown float_of_decimal) rows (products resp) /\
    StronglySorted (fun p q => name_leb (po_name p) (po_name q) = true)
                   (products resp) /\
    Permutation (map (product_view float_of_decimal)
                     (active_offers db (m_id m)))
                (products resp).
Proof.
  intros Hm Hrows. rewrite (db_store_run_found env db machine_code m Hm).
  simpl in Hrows. injection Hrows as <-.
  eexists. split; [reflexivity |]. simpl.
  repeat split.
  - rewrite !length_map. reflexivity.
  - induction (sorted_offers name_leb db (m_id m)) as [| o os IH]; simpl;
      constructor; auto.
    apply ProductOut_of_row_shown. reflexivity.
  - apply StronglySorted_map with (f := product_view float_of_decimal)
      (R := fun p q => name_leb (po_name p) (po_name q) = true).
    apply (order_by_strongly_sorted name_leb name_leb_total name_leb_trans
             (fun o : machine_product * product => p_name (snd o))).
  - apply Permutation_map. apply order_by_perm.
Qed.

End Sorted.

End DatabaseClaims.

(** ** The scenario, run *)

(** Byte-wise comparison of text is a total preorder. *)
Lemma String_leb_trans (a b c : string) :
  String.leb a b = true -> String.leb b c = true -> String.leb a c = true.
Proof.
  unfold String.leb.
  destruct (String.compare a b) eqn:Hab; try discriminate; intros _;
    destruct (String.compare b c) eqn:Hbc; try discriminate; intros _.
  - apply String.compare_eq_iff in Hab. subst. rewrite Hbc. reflexivity.
  - apply String.compare_eq_iff in Hab. subst. rewrite Hbc. reflexivity.
  - apply String.compare_eq_iff in Hbc. subst. rewrite Hab. reflexivity.
  - apply String_as_OT.cmp_lt in Hab, Hbc.
    assert (Hac : String_as_OT.lt a c)
      by (eapply String_as_OT.lt_trans; eassumption).
    apply String_as_OT.cmp_lt in Hac. unfold String_as_OT.cmp in Hac.
    rewrite Hac. reflexivity.
Qed.

Module ScenarioFacts.

Import Scenario.

(** The products of M12 come out by name, Crisps before Zesty Cola,
    although the SKU of the cola sorts first. *)
Example lobby_vendor_listing :
  option_map (fun r => (machine_id r, machine_name r, map po_id (products r)))
    (match fst (request "M12" live) with Ok r => Some r | Raise _ => None end)
  = Some ("M12", "Lobby Vendor", ["Z-45"; "A-330"]).
Proof. reflexivity. Qed.

Example unknown_code_is_404 :
  fst (request "ZZZ" live) = Raise (HTTPException 404 "Machine not found").
Proof. reflexivity. Qed.

Lemma machine_id_is_scan_code_witness :
  exists resp tr,
    request "M12" live = (Ok resp, tr) /\
    machine_id resp = "M12" /\ machine_name resp = "Lobby Vendor".
Proof.
  destruct (request "M12" live) as [r tr] eqn:Hrun.
  destruct r as [resp | e]; [| vm_compute in Hrun; discriminate].
  exists resp, tr. split; [reflexivity |].
  destruct (machine_id_is_scan_code Decimal exact String.leb env db no_faults
              "M12" resp tr Hrun)
    as [m [Hm [_ [_ [_ [Hid [Hname _]]]]]]].
  vm_compute in Hm. injection Hm as <-. split; assumption.
Defined.

Lemma not_found_on_zero_rows_witness :
  st_machines live [PText "M13"] = inr [] /\
  fst (request "M13" live) = Raise (HTTPException 404 "Machine not found") /\
  executed (snd (request "M13" live)) = [(SQL_MACHINE, [PText "M13"])].
Proof.
  assert (H0 : st_machines live [PText "M13"] = inr []).
  { apply (proj2 (not_found_on_zero_rows Decimal exact String.leb)
             env db no_faults "M13" eq_refl).
    intros m Hin Hcode. simpl in Hin.
    destruct Hin as [<- | [<- | [<- | [<- | []]]]];
      solve [reflexivity | discriminate]. }
  split; [exact H0 |].
  destruct (proj1 (not_found_on_zero_rows Decimal exact String.leb)
              live "M13" eq_refl eq_refl H0) as [H1 [_ H3]].
  split; assumption.
Defined.

Lemma products_sorted_by_name_witness :
  exists resp,
    fst (request "M12" live) = Ok resp /\
    map po_name (products resp) = ["Crisps"; "Zesty Cola"].
Proof.
  destruct (products_sorted_by_name Decimal exact String.leb
              String.leb_total String_leb_trans env db "M12"
              {| m_id := 7; m_code := "M12"; m_name := "Lobby Vendor";
                 m_is_active := true |}
              _ eq_refl eq_refl) as [resp [Hrun _]].
  exists resp. split; [exact Hrun |].
  vm_compute in Hrun. injection Hrun as <-. reflexivity.
Defined.

Lemma empty_catalogue_is_success_witness :
  hd_error (matching_machines db "M14") =
    Some {| m_id := 9; m_code := "M14"; m_name := "Roof Vendor";
            m_is_active := true |} /\
  fst (request "M14" live) =
    Ok {| machine_id := "M14"; machine_name := "Roof Vendor"; products := [] |}.
Proof.
  split; [reflexivity |].
  exact (proj1 (empty_catalogue_is_success Decimal exact String.leb env db
                  "M14" _ eq_refl eq_refl)).
Defined.

Lemma connection_closed_exactly_once_witness :
  st_connect dropped (conninfo_of dropped) = None /\
  closes (snd (request "M12" dropped)) = 1%nat.
Proof.
  split; [reflexivity |].
  exact (proj1 (proj2 (connection_closed_exactly_once Decimal exact dropped
                         "M12" eq_refl))).
Defined.

Lemma store_failure_is_internal_error_witness :
  store_fails dropped "M12" /\
  respond (fst (request "M12" dropped)) = InternalServerError.
Proof.
  assert (Hf : store_fails dropped "M12").
  { right. right. right.
    exists {| mr_id := Some 7; mr_code := Some "M12";
              mr_name := Some "Lobby Vendor" |}, [],
           "server closed the connection unexpectedly".
    split; reflexivity. }
  split; [exact Hf |].
  exact (proj1 (proj2 (store_failure_is_internal_error Decimal exact dropped
                         "M12" Hf))).
Defined.

(** A code written to break out of a quoted literal is sent as a
    parameter like any other. *)
Lemma sql_text_independent_of_machine_code_witness :
  executed (snd (request "x' OR '1'='1" live)) =
    [(SQL_MACHINE, [PText "x' OR '1'='1"])] /\
  nth 0 (sql_texts (snd (request "x' OR '1'='1" live))) "" =
  nth 0 (sql_texts (snd (request "M12" live))) "".
Proof.
  split; [reflexivity |].
  exact (proj2 (sql_text_independent_of_machine_code Decimal exact live
                  "x' OR '1'='1")
           live "M12" 0%nat _ _ eq_refl eq_refl).
Defined.

(** The two active pricing rows of M15 for the same product are both
    listed. *)
Lemma rows_mapped_one_for_one_witness :
  exists resp tr,
    request "M15" live = (Ok resp, tr) /\
    List.length (products resp) = 2%nat.
Proof.
  destruct (request "M15" live) as [r tr] eqn:Hrun.
  destruct r as [resp | e]; [| vm_compute in Hrun; discriminate].
  exists resp, tr. split; [reflexivity |].
  destruct (rows_mapped_one_for_one Decimal exact live "M15" resp tr Hrun)
    as [mrow [rest [rows [Hq1 [Hq2 [Hlen _]]]]]].
  vm_compute in Hq1. injection Hq1 as <- _.
  vm_compute in Hq2. injection Hq2 as <-.
  exact Hlen.
Defined.

Example duplicate_rows_listed_twice :
  match fst (request "M15" live) with
  | Ok r => map (fun p => (po_id p, po_price p)) (products r)
  | Raise _ => []
  end = [("GUM-1", mkDecimal 100 (-2)); ("GUM-1", mkDecimal 120 (-2))].
Proof. reflexivity. Qed.


End ScenarioFacts.

(** * Further properties of the code *)

(** ** The connection helper *)

(** X1.  [get_conn] makes one driver call, [connect], and nothing
    else.  The database name, user, password and host are the values
    of their environment variables, absent when unset; the port is
    the value of [DB_PORT] when set and "5432" otherwise.  The helper
    returns a connection exactly when the driver accepts these
    arguments, and raises the driver's error when it refuses. *)
Theorem get_conn_passes_settings (st : store) :
  exists ci,
    snd (get_conn st) = [EvConnect ci] /\
    ci_dbname ci = st_environ st "DB_NAME" /\
    ci_user ci = st_environ st "DB_USER" /\
    ci_password ci = st_environ st "DB_PASSWORD" /\
    ci_host ci = st_environ st "DB_HOST" /\
    (forall v, st_environ st "DB_PORT" = Some v -> ci_port ci = Some v) /\
    (st_environ st "DB_PORT" = None -> ci_port ci = Some "5432") /\
    (fst (get_conn st) = Ok Conn <-> st_connect st ci = None) /\
    (forall msg, st_connect st ci = Some msg ->
                 fst (get_conn st) = Raise (DatabaseError msg)).
Proof.
  exists (conninfo_of st). rewrite get_conn_run.
  destruct (st_connect st (conninfo_of st)) as [msg |] eqn:Hc; simpl;
    repeat split; try reflexivity; try discriminate;
    try (intros v Hv; rewrite Hv; reflexivity);
    try (intros Hv; rewrite Hv; reflexivity).
  intros msg' H. injection H as <-. reflexivity.
Qed.

Section HandlerEdges.

Variable pyfloat : Type.
Variable float_of_decimal : Decimal -> pyfloat.

Abbreviation handler := (get_machine_products float_of_decimal).
Abbreviation convert := (ProductOut_of_row float_of_decimal).

(** ** Building the response models *)

Lemma row_valid_converts (row : product_row) :
  row_valid row = true -> exists p, convert row = Ok p.
Proof.
  unfold row_valid, ProductOut_of_row, py_float, validate_str.
  destruct (pr_price row), (pr_sku row), (pr_name row), (pr_currency row);
    simpl; intros H; try discriminate.
  eexists. reflexivity.
Qed.

Lemma row_invalid_raises (row : product_row) :
  row_valid row = false ->
  convert row = Raise TypeError \/ convert row = Raise ValidationError.
Proof.
  unfold row_valid, ProductOut_of_row, py_float, validate_str.
  destruct (pr_price row), (pr_sku row), (pr_name row), (pr_currency row);
    simpl; intros H; try discriminate; auto.
Qed.

Lemma map_result_valid (rows : list product_row) :
  forallb row_valid rows = true ->
  exists prods, map_result convert rows = Ok prods.
Proof.
  induction rows as [| row rows IH]; simpl; intros H.
  - eexists. reflexivity.
  - apply andb_true_iff in H. destruct H as [Hrow Hrows].
    destruct (row_valid_converts row Hrow) as [p ->].
    destruct (IH Hrows) as [ps ->]. simpl. eexists. reflexivity.
Qed.

Lemma map_result_first_error (good more : list product_row)
    (bad : product_row) (e : exn) :
  forallb row_valid good = true ->
  convert bad = Raise e ->
  map_result convert (good ++ bad :: more) = Raise e.
Proof.
  induction good as [| row good IH]; simpl; intros Hgood Hbad.
  - rewrite Hbad. reflexivity.
  - apply andb_true_iff in Hgood. destruct Hgood as [Hrow Hgood].
    destruct (row_valid_converts row Hrow) as [p ->]. simpl.
    rewrite (IH Hgood Hbad). reflexivity.
Qed.

Lemma map_result_ok_valid (rows : list product_row)
    (prods : list (ProductOut pyfloat)) :
  map_result convert rows = Ok prods -> forallb row_valid rows = true.
Proof.
  revert prods. induction rows as [| row rows IH]; simpl; intros prods H.
  - reflexivity.
  - destruct (row_valid row) eqn:Hrow.
    + destruct (convert row); simpl in H; [| discriminate].
      destruct (map_result convert rows) eqn:Hrows; simpl in H;
        [| discriminate].
      simpl. eapply IH. reflexivity.
    + destruct (row_invalid_raises row Hrow) as [Hr | Hr];
        rewrite Hr in H; discriminate.
Qed.

(** X3.  Which rows become a product entry.  A row is converted
    exactly when the entry shows it field by field, which needs its
    price, sku, name and currency; a missing description or image is
    carried over as absent.  A row without price fails in [float]
    with a [TypeError], whatever else it lacks; a priced row that
    lacks its sku, name or currency fails validation. *)
Theorem row_conversion (row : product_row) :
  (forall p, convert row = Ok p <-> row_shown float_of_decimal row p) /\
  (convert row = Raise TypeError <-> pr_price row = None) /\
  (convert row = Raise ValidationError <->
     pr_price row <> None /\
     (pr_sku row = None \/ pr_name row = None \/ pr_currency row = None)).
Proof.
  split; [| split].
  - intros p. split; [apply ProductOut_of_row_shown |].
    unfold row_shown, ProductOut_of_row, py_float, validate_str.
    intros [Hsku [Hname [Hdesc [Hprice [Hcur Himg]]]]].
    rewrite Hsku, Hname, Hcur, Hdesc, Himg.
    destruct (pr_price row) as [d |]; simpl in *; [| discriminate].
    injection Hprice as ->. destruct p. reflexivity.
  - unfold ProductOut_of_row, py_float, validate_str.
    destruct (pr_price row), (pr_sku row), (pr_name row), (pr_currency row);
      simpl; split; intros H; try discriminate; reflexivity.
  - unfold ProductOut_of_row, py_float, validate_str.
    destruct (pr_price row), (pr_sku row), (pr_name row), (pr_currency row);
      simpl; split; intros H; try discriminate; try reflexivity;
      try (split; [discriminate | tauto]);
      destruct H as [H1 [H | [H | H]]]; congruence.
Qed.

(** ** Failures of the request *)

(** X2.  When the driver refuses the connection, the request ends
    there: the driver's error is raised unchanged, the only driver
    call is the refused [connect], no cursor is opened, no statement
    is sent and nothing is closed. *)
Theorem refused_connection_ends_request (st : store) (machine_code : string)
    (msg : string) :
  st_connect st (conninfo_of st) = Some msg ->
  handler machine_code st =
    (Raise (DatabaseError msg), [EvConnect (conninfo_of st)]) /\
  respond (fst (handler machine_code st)) = InternalServerError /\
  closes (snd (handler machine_code st)) = 0%nat.
Proof.
  intros H. rewrite get_machine_products_run. cbv zeta. rewrite H.
  simpl. auto.
Qed.

(** X4.  The product rows are converted in order and the first row
    that cannot be converted decides the outcome: its exception is
    the one raised, the caller sees a bare 500 and no product at all,
    although both statements were sent; the connection is closed. *)
Theorem first_bad_row_fails_request (st : store) (machine_code : string)
    (mrow : machine_row) (rest : list machine_row)
    (good more : list product_row) (bad : product_row) (e : exn) :
  st_connect st (conninfo_of st) = None ->
  st_cursor st = None ->
  st_machines st [PText machine_code] = inr (mrow :: rest) ->
  st_products st [adapt_int (mr_id mrow)] = inr (good ++ bad :: more) ->
  forallb row_valid good = true ->
  convert bad = Raise e ->
  fst (handler machine_code st) = Raise e /\
  respond (fst (handler machine_code st)) = InternalServerError /\
  sql_texts (snd (handler machine_code st)) = [SQL_MACHINE; SQL_PRODUCTS] /\
  closes (snd (handler machine_code st)) = 1%nat.
Proof.
  intros Hconn Hcur Hq1 Hq2 Hgood Hbad.
  rewrite get_machine_products_run. cbv zeta.
  rewrite Hconn, Hcur, Hq1, Hq2. simpl.
  unfold build_response. rewrite (map_result_first_error _ _ _ _ Hgood Hbad).
  simpl. repeat split.
  assert (Hv : row_valid bad = false).
  { destruct (row_valid bad) eqn:Hv; [| reflexivity].
    destruct (row_valid_converts bad Hv) as [p Hp]. congruence. }
  destruct (row_invalid_raises bad Hv) as [H | H];
    rewrite H in Hbad; injection Hbad as <-; reflexivity.
Qed.

(** X5.  The request succeeds exactly when the driver accepts the
    connection and the cursor, the machine statement returns at least
    one row whose first row has a code and a name, and the products
    statement, run for that row's id, returns rows that all have a
    price, sku, name and currency. *)
Theorem success_iff (st : store) (machine_code : string) :
  (exists resp, fst (handler machine_code st) = Ok resp) <->
  st_connect st (conninfo_of st) = None /\
  st_cursor st = None /\
  exists mrow rest rows,
    st_machines st [PText machine_code] = inr (mrow :: rest) /\
    st_products st [adapt_int (mr_id mrow)] = inr rows /\
    machine_row_valid mrow = true /\
    forallb row_valid rows = true.
Proof.
  split.
  - intros [resp H]. revert H. run_cases st machine_code; simpl;
      intros H; try discriminate.
    split; [reflexivity |]. split; [reflexivity |].
    exists mrow, rest, rows. split; [reflexivity |]. split; [exact Hq2 |].
    apply build_response_inv in H. destruct H as [Hc [Hn Hm]].
    unfold machine_row_valid. rewrite Hc, Hn. split; [reflexivity |].
    eapply map_result_ok_valid. exact Hm.
  - intros [Hconn [Hcur [mrow [rest [rows [Hq1 [Hq2 [Hm Hrows]]]]]]]].
    rewrite get_machine_products_run. cbv zeta.
    rewrite Hconn, Hcur, Hq1, Hq2. simpl.
    unfold build_response, new_MachineProductsResponse, validate_str.
    destruct (map_result_valid rows Hrows) as [prods ->]. simpl.
    unfold machine_row_valid in Hm.
    destruct (mr_code mrow), (mr_name mrow); try discriminate.
    simpl. eexists. reflexivity.
Qed.

Lemma map_result_raises (rows : list product_row) (e : exn) :
  map_result convert rows = Raise e -> e = TypeError \/ e = ValidationError.
Proof.
  induction rows as [| row rows IH]; simpl; intros H; [discriminate |].
  destruct (row_valid row) eqn:Hrow.
  - destruct (row_valid_converts row Hrow) as [p Hp]. rewrite Hp in H.
    simpl in H. destruct (map_result convert rows); simpl in H;
      [discriminate |].
    injection H as ->. apply IH. reflexivity.
  - destruct (row_invalid_raises row Hrow) as [Hr | Hr]; rewrite Hr in H;
      injection H as <-; auto.
Qed.

Lemma build_response_raises (mrow : machine_row) (rows : list product_row)
    (e : exn) :
  build_response float_of_decimal mrow rows = Raise e ->
  e = TypeError \/ e = ValidationError.
Proof.
  unfold build_response, new_MachineProductsResponse, validate_str.
  destruct (map_result convert rows) as [prods | e'] eqn:Hmap; simpl.
  - destruct (mr_code mrow), (mr_name mrow); simpl; intros H;
      try discriminate; injection H as <-; auto.
  - intros H. injection H as <-. eapply map_result_raises. exact Hmap.
Qed.

(** X6.  The handler answers 404 exactly when the connection and the
    cursor were obtained and the machine statement returned no row.
    It raises no other HTTP error of its own, so a request is
    answered 200, 404 or 500. *)
Theorem not_found_iff_zero_rows (st : store) (machine_code : string) :
  (fst (handler machine_code st) =
     Raise (HTTPException 404 "Machine not found") <->
   st_connect st (conninfo_of st) = None /\ st_cursor st = None /\
   st_machines st [PText machine_code] = inr []) /\
  (forall status detail,
      fst (handler machine_code st) = Raise (HTTPException status detail) ->
      status = 404 /\ detail = "Machine not found") /\
  (status_of (respond (fst (handler machine_code st))) = 200 \/
   status_of (respond (fst (handler machine_code st))) = 404 \/
   status_of (respond (fst (handler machine_code st))) = 500).
Proof.
  run_cases st machine_code; simpl.
  1-3, 5: split; [split; [discriminate | intros [? [? ?]]; congruence] |];
          split; [intros ? ? ?; discriminate | auto].
  - split; [tauto |]. split; [| auto].
    intros s d H. injection H as <- <-. auto.
  - destruct (build_response float_of_decimal mrow rows) as [resp | e] eqn:Hb.
    + split; [split; [discriminate | intros [? [? ?]]; congruence] |].
      split; [intros ? ? ?; discriminate | simpl; auto].
    + destruct (build_response_raises _ _ _ Hb) as [-> | ->]; simpl;
        (split; [split; [discriminate | intros [? [? ?]]; congruence] |]);
        (split; [intros ? ? ?; discriminate | auto]).
Qed.

(** X7.  Only the first row of the machine statement is used.  When
    two stores return the same first machine row, whatever follows
    it, and answer the other calls alike, the results are the same
    and so are the statements sent. *)
Theorem later_machine_rows_ignored (st1 st2 : store) (machine_code : string)
    (mrow : machine_row) (rest1 rest2 : list machine_row) :
  st_connect st1 (conninfo_of st1) = st_connect st2 (conninfo_of st2) ->
  st_cursor st1 = st_cursor st2 ->
  st_machines st1 [PText machine_code] = inr (mrow :: rest1) ->
  st_machines st2 [PText machine_code] = inr (mrow :: rest2) ->
  st_products st1 [adapt_int (mr_id mrow)] =
    st_products st2 [adapt_int (mr_id mrow)] ->
  fst (handler machine_code st1) = fst (handler machine_code st2) /\
  executed (snd (handler machine_code st1)) =
    executed (snd (handler machine_code st2)).
Proof.
  intros Hc Hcur H1 H2 Hp.
  rewrite !get_machine_products_run. cbv zeta.
  rewrite <- Hc, <- Hcur, H1, H2, <- Hp.
  destruct (st_connect st1 (conninfo_of st1)); [simpl; auto |].
  destruct (st_cursor st1); [simpl; auto |].
  destruct (st_products st1 [adapt_int (mr_id mrow)]); simpl; auto.
Qed.

(** X8.  Once a machine row is fetched, the products statement is
    sent with that row's internal id as its only parameter (SQL NULL
    when the id is missing), never the scan code; this happens
    whatever the row's code and name are and whatever the products
    statement then answers. *)
Theorem products_statement_bound_to_row_id (st : store)
    (machine_code : string) (mrow : machine_row) (rest : list machine_row) :
  st_connect st (conninfo_of st) = None ->
  st_cursor st = None ->
  st_machines st [PText machine_code] = inr (mrow :: rest) ->
  executed (snd (handler machine_code st)) =
    [(SQL_MACHINE, [PText machine_code]);
     (SQL_PRODUCTS, [adapt_int (mr_id mrow)])].
Proof.
  intros Hconn Hcur Hq1. rewrite get_machine_products_run. cbv zeta.
  rewrite Hconn, Hcur, Hq1.
  destruct (st_products st [adapt_int (mr_id mrow)]); reflexivity.
Qed.

(** X9.  A machine row without code or name is rejected only when the
    response is built: the products statement has been sent and its
    rows converted by then.  The caller sees a 500, not a 404. *)
Theorem incomplete_machine_row_fails_late (st : store)
    (machine_code : string) (mrow : machine_row) (rest : list machine_row)
    (rows : list product_row) :
  st_connect st (conninfo_of st) = None ->
  st_cursor st = None ->
  st_machines st [PText machine_code] = inr (mrow :: rest) ->
  st_products st [adapt_int (mr_id mrow)] = inr rows ->
  forallb row_valid rows = true ->
  machine_row_valid mrow = false ->
  fst (handler machine_code st) = Raise ValidationError /\
  status_of (respond (fst (handler machine_code st))) = 500 /\
  sql_texts (snd (handler machine_code st)) = [SQL_MACHINE; SQL_PRODUCTS].
Proof.
  intros Hconn Hcur Hq1 Hq2 Hrows Hm.
  rewrite get_machine_products_run. cbv zeta.
  rewrite Hconn, Hcur, Hq1, Hq2. simpl.
  unfold build_response, new_MachineProductsResponse, validate_str.
  destruct (map_result_valid rows Hrows) as [prods ->]. simpl.
  unfold machine_row_valid in Hm.
  destruct (mr_code mrow), (mr_name mrow); try discriminate; simpl; auto.
Qed.

(** X10.  Statements are sent only through an open cursor.  Once the
    connection is obtained: if the cursor is obtained too, the trace
    is the connect, the cursor, one or two statements, the close of
    the cursor and then the close of the connection; if the cursor is
    refused, no statement is sent and only the connection is closed. *)
Theorem statements_sent_inside_cursor (st : store) (machine_code : string) :
  st_connect st (conninfo_of st) = None ->
  (st_cursor st = None ->
   snd (handler machine_code st) =
     EvConnect (conninfo_of st) :: EvCursor ::
     map sent (executed (snd (handler machine_code st))) ++
     [EvCursorClose; EvClose] /\
   (1 <= List.length (executed (snd (handler machine_code st))) <= 2)%nat) /\
  (st_cursor st <> None ->
   snd (handler machine_code st) =
     [EvConnect (conninfo_of st); EvCursor; EvClose]).
Proof.
  intros Hacq. run_cases st machine_code; try discriminate; simpl;
    (split; [intros H; try discriminate; auto | intros H; congruence]).
Qed.

(** X13.  A successful response echoes the fetched machine row: its
    [machine_id] and [machine_name] are the code and name columns of
    the first row the machine statement returned, not the code that
    was asked for. *)
Theorem response_echoes_fetched_row (st : store) (machine_code : string)
    (resp : MachineProductsResponse pyfloat) :
  fst (handler machine_code st) = Ok resp ->
  exists mrow rest,
    st_machines st [PText machine_code] = inr (mrow :: rest) /\
    mr_code mrow = Some (machine_id resp) /\
    mr_name mrow = Some (machine_name resp).
Proof.
  intros H.
  destruct (handler machine_code st) as [r tr] eqn:Hrun. simpl in H. subst r.
  apply success_inv in Hrun.
  destruct Hrun as [mrow [rest [rows [Hq1 [_ Hb]]]]].
  apply build_response_inv in Hb. destruct Hb as [Hc [Hn _]].
  exists mrow, rest. auto.
Qed.

End HandlerEdges.

(** ** The lookup on a database *)

Section DatabaseEdges.

Variable pyfloat : Type.
Variable float_of_decimal : Decimal -> pyfloat.
Variable name_leb : string -> string -> bool.

Abbreviation handler := (get_machine_products float_of_decimal).

(** X11.  What a successful response lists.  A product entry is
    listed exactly when it shows a pricing row of the resolved
    machine that is active and whose product exists: pricing rows
    that are inactive, belong to another machine, or point to no
    product are never shown. *)
Theorem listed_products_are_active_offers (env : string -> option string)
    (db : database) (machine_code : string) (m : machine)
    (resp : MachineProductsResponse pyfloat) (p : ProductOut pyfloat) :
  hd_error (matching_machines db machine_code) = Some m ->
  fst (handler machine_code (db_store name_leb env db no_faults)) = Ok resp ->
  (In p (products resp) <->
   exists mp pr,
     In mp (tbl_machine_products db) /\ In pr (tbl_products db) /\
     p_id pr = mp_product_id mp /\
     mp_machine_id mp = m_id m /\ mp_is_active mp = true /\
     p = product_view float_of_decimal (mp, pr)).
Proof.
  intros Hm Hrun.
  rewrite (db_store_run_found _ float_of_decimal name_leb env db
             machine_code m Hm) in Hrun.
  simpl in Hrun. injection Hrun as <-. simpl.
  rewrite in_map_iff. split.
  - intros [o [Hp Hin]].
    apply (Permutation_in _ (Permutation_sym (order_by_perm name_leb _ _)))
      in Hin.
    apply active_offers_spec in Hin.
    destruct o as [mp pr]. simpl in Hin.
    destruct Hin as [H1 [H2 [H3 [H4 H5]]]].
    exists mp, pr. repeat split; auto.
  - intros [mp [pr [H1 [H2 [H3 [H4 [H5 ->]]]]]]].
    exists (mp, pr). split; [reflexivity |].
    apply (Permutation_in _ (order_by_perm name_leb _ _)).
    apply active_offers_spec. simpl. auto.
Qed.

(** X12.  With a driver that does not fail, and for a code the driver
    accepts as a parameter (one without a NUL character), the lookup
    is decided by the machines table alone: it answers 200 exactly
    when some active machine has the requested code, 404 exactly when
    none has, and never 500. *)
Theorem healthy_lookup_decided_by_machines (env : string -> option string)
    (db : database) (machine_code : string) :
  has_nul machine_code = false ->
  (status_of (respond (fst (handler machine_code
                              (db_store name_leb env db no_faults)))) = 200
   <-> exists m, In m (tbl_machines db) /\ m_code m = machine_code /\
                 m_is_active m = true) /\
  (status_of (respond (fst (handler machine_code
                              (db_store name_leb env db no_faults)))) = 404
   <-> forall m, In m (tbl_machines db) -> m_code m = machine_code ->
                 m_is_active m = false) /\
  status_of (respond (fst (handler machine_code
                             (db_store name_leb env db no_faults)))) <> 500.
Proof.
  intros _.
  destruct (matching_machines db machine_code) as [| m ms] eqn:Hmm.
  - assert (Hnone := proj1 (matching_machines_nil db machine_code) Hmm).
    rewrite get_machine_products_run. cbv zeta. simpl. rewrite Hmm. simpl.
    split; [| split; [tauto | discriminate]].
    split; [discriminate |].
    intros [m [Hin [Hc Ha]]]. rewrite (Hnone m Hin Hc) in Ha. discriminate.
  - destruct (matching_machines_head _ _ _ _ Hmm) as [Hin [Hc Ha]].
    rewrite (db_store_run_found _ float_of_decimal name_leb env db
               machine_code m) by (rewrite Hmm; reflexivity).
    simpl. split; [| split; [| discriminate]].
    + split; [intros _; exists m; auto | reflexivity].
    + split; [discriminate |].
      intros Hnone. rewrite (Hnone m Hin Hc) in Ha. discriminate.
Qed.

End DatabaseEdges.

(** ** The edge cases, run *)

Module EdgeFacts.

Import Scenario Edge.

Lemma get_conn_passes_settings_witness :
  exists ci,
    snd (get_conn live) = [EvConnect ci] /\
    ci_host ci = Some "db.internal" /\ ci_user ci = None /\
    ci_port ci = Some "5432".
Proof.
  destruct (get_conn_passes_settings live)
    as [ci [Htr [_ [Hu [_ [Hh [_ [Hp _]]]]]]]].
  exists ci. split; [exact Htr |]. split; [exact Hh |].
  split; [exact Hu | exact (Hp eq_refl)].
Defined.

Lemma refused_connection_ends_request_witness :
  st_connect refused (conninfo_of refused) =
    Some "could not connect to server" /\
  closes (snd (request "M12" refused)) = 0%nat.
Proof.
  split; [reflexivity |].
  exact (proj2 (proj2 (refused_connection_ends_request Decimal exact refused
                         "M12" _ eq_refl))).
Defined.

(** A row with neither price nor currency fails in [float]. *)
Lemma row_conversion_witness :
  pr_price unpriced = None /\ pr_currency unpriced = None /\
  ProductOut_of_row exact unpriced = Raise TypeError.
Proof.
  split; [reflexivity |]. split; [reflexivity |].
  exact (proj2 (proj1 (proj2 (row_conversion Decimal exact unpriced)))
           eq_refl).
Defined.

(** The nameless product row comes before the unpriced one, so the
    request fails in validation. *)
Lemma first_bad_row_fails_request_witness :
  st_products (answering [lobby] [cola; unnamed; unpriced]) [PInteger 7] =
    inr ([cola] ++ unnamed :: [unpriced]) /\
  fst (request "M12" (answering [lobby] [cola; unnamed; unpriced])) =
    Raise ValidationError.
Proof.
  split; [reflexivity |].
  exact (proj1 (first_bad_row_fails_request Decimal exact
                  (answering [lobby] [cola; unnamed; unpriced]) "M12"
                  lobby [] [cola] [unpriced] unnamed ValidationError
                  eq_refl eq_refl eq_refl eq_refl eq_refl eq_refl)).
Defined.

Lemma success_iff_witness :
  machine_row_valid lobby = true /\ forallb row_valid [cola] = true /\
  exists resp, fst (request "M12" (answering [lobby] [cola])) = Ok resp.
Proof.
  split; [reflexivity |]. split; [reflexivity |].
  apply (proj2 (success_iff Decimal exact (answering [lobby] [cola]) "M12")).
  split; [reflexivity |]. split; [reflexivity |].
  exists lobby, [], [cola]. repeat split; reflexivity.
Defined.

Lemma not_found_iff_zero_rows_witness :
  st_machines live [PText "M13"] = inr [] /\
  fst (request "M13" live) = Raise (HTTPException 404 "Machine not found").
Proof.
  split; [reflexivity |].
  apply (proj2 (proj1 (not_found_iff_zero_rows Decimal exact live "M13"))).
  repeat split; reflexivity.
Defined.

Lemma later_machine_rows_ignored_witness :
  st_machines (answering [lobby; annex] [cola]) [PText "M12"] =
    inr (lobby :: [annex]) /\
  fst (request "M12" (answering [lobby; annex] [cola])) =
  fst (request "M12" (answering [lobby] [cola])).
Proof.
  split; [reflexivity |].
  exact (proj1 (later_machine_rows_ignored Decimal exact
                  (answering [lobby; annex] [cola]) (answering [lobby] [cola])
                  "M12" lobby [annex] []
                  eq_refl eq_refl eq_refl eq_refl eq_refl)).
Defined.

Lemma products_statement_bound_to_row_id_witness :
  st_machines (answering [nameless] [cola]) [PText "M12"] =
    inr (nameless :: []) /\
  executed (snd (request "M12" (answering [nameless] [cola]))) =
    [(SQL_MACHINE, [PText "M12"]); (SQL_PRODUCTS, [PInteger 7])].
Proof.
  split; [reflexivity |].
  exact (products_statement_bound_to_row_id Decimal exact
           (answering [nameless] [cola]) "M12" nameless []
           eq_refl eq_refl eq_refl).
Defined.

Lemma incomplete_machine_row_fails_late_witness :
  machine_row_valid nameless = false /\
  fst (request "M12" (answering [nameless] [cola])) = Raise ValidationError.
Proof.
  split; [reflexivity |].
  exact (proj1 (incomplete_machine_row_fails_late Decimal exact
                  (answering [nameless] [cola]) "M12" nameless [] [cola]
                  eq_refl eq_refl eq_refl eq_refl eq_refl eq_refl)).
Defined.

Lemma statements_sent_inside_cursor_witness :
  st_connect dropped (conninfo_of dropped) = None /\
  st_cursor dropped = None /\
  (1 <= List.length (executed (snd (request "M12" dropped))) <= 2)%nat.
Proof.
  split; [reflexivity |]. split; [reflexivity |].
  exact (proj2 (proj1 (statements_sent_inside_cursor Decimal exact dropped
                         "M12" eq_refl) eq_refl)).
Defined.

(** The crisps of M12 are listed; they are its second pricing row. *)
Lemma listed_products_are_active_offers_witness :
  exists resp,
    fst (request "M12" live) = Ok resp /\
    In {| po_id := "Z-45"; po_name := "Crisps"; po_description := None;
          po_price := mkDecimal 225 (-2); po_currency := "USD";
          po_image_url := Some "crisps.png" |} (products resp).
Proof.
  destruct (fst (request "M12" live)) as [resp | e] eqn:Hrun;
    [| vm_compute in Hrun; discriminate].
  exists resp. split; [reflexivity |].
  apply (proj2 (listed_products_are_active_offers Decimal exact String.leb
                  env db "M12"
                  {| m_id := 7; m_code := "M12"; m_name := "Lobby Vendor";
                     m_is_active := true |}
                  resp _ eq_refl Hrun)).
  exists {| mp_machine_id := 7; mp_product_id := 2;
            mp_price := mkDecimal 225 (-2); mp_currency := "USD";
            mp_is_active := true |},
         {| p_id := 2; p_sku := "Z-45"; p_name := "Crisps";
            p_description := None; p_image_url := Some "crisps.png" |}.
  simpl. repeat split; auto.
Defined.

Lemma healthy_lookup_decided_by_machines_witness :
  has_nul "M14" = false /\
  (exists m, In m (tbl_machines db) /\ m_code m = "M14" /\
             m_is_active m = true) /\
  status_of (respond (fst (request "M14" live))) = 200.
Proof.
  assert (H : exists m, In m (tbl_machines db) /\ m_code m = "M14" /\
                        m_is_active m = true).
  { exists {| m_id := 9; m_code := "M14"; m_name := "Roof Vendor";
              m_is_active := true |}.
    simpl. auto. }
  split; [reflexivity |]. split; [exact H |].
  exact (proj2 (proj1 (healthy_lookup_decided_by_machines Decimal exact
                         String.leb env db "M14" eq_refl)) H).
Defined.

(** Asked for "M12", the store returns the row stored as "m12", and
    that is what the response shows. *)
Lemma response_echoes_fetched_row_witness :
  exists resp,
    fst (request "M12" (answering [lowercase] [cola])) = Ok resp /\
    machine_id resp = "m12".
Proof.
  destruct (fst (request "M12" (answering [lowercase] [cola])))
    as [resp | e] eqn:Hrun; [| vm_compute in Hrun; discriminate].
  exists resp. split; [reflexivity |].
  destruct (response_echoes_fetched_row Decimal exact
              (answering [lowercase] [cola]) "M12" resp Hrun)
    as [mrow [rest [Hq1 [Hc _]]]].
  vm_compute in Hq1. injection Hq1 as <- _.
  simpl in Hc. injection Hc as <-. reflexivity.
Defined.

End EdgeFacts.

(** * The price as a float *)

(** ** Mantissa sizes and locations *)

Lemma digits2_pos_bounds (p : positive) :
  2 ^ (Zpos (digits2_pos p) - 1) <= Zpos p < 2 ^ Zpos (digits2_pos p).
Proof.
  induction p as [p IH | p IH |]; simpl digits2_pos.
  - rewrite Pos2Z.inj_succ.
    replace (Z.succ (Zpos (digits2_pos p)) - 1) with (Z.succ (Zpos (digits2_pos p) - 1)) by lia.
    rewrite !Z.pow_succ_r by lia. lia.
  - rewrite Pos2Z.inj_succ.
    replace (Z.succ (Zpos (digits2_pos p)) - 1) with (Z.succ (Zpos (digits2_pos p) - 1)) by lia.
    rewrite !Z.pow_succ_r by lia. lia.
  - simpl. lia.
Qed.

Lemma Zdigits2_unique (q n : Z) :
  0 < q -> 2 ^ (n - 1) <= q < 2 ^ n -> Zdigits2 q = n.
Proof.
  intros Hq [Hlo Hhi]. destruct q as [| p | p]; try lia. simpl.
  pose proof (digits2_pos_bounds p) as [Hl Hh].
  set (d := Zpos (digits2_pos p)) in *.
  assert (Hd : 0 < d) by (unfold d; lia).
  destruct (Z.lt_trichotomy d n) as [Hlt | [Heq | Hgt]]; [| exact Heq |].
  - assert (2 ^ d <= 2 ^ (n - 1)) by (apply Z.pow_le_mono_r; lia). lia.
  - assert (0 <= n).
    { destruct (Z.lt_ge_cases n 0) as [Hn | Hn]; [| exact Hn].
      rewrite (Z.pow_neg_r 2 n) in Hhi by lia. lia. }
    assert (2 ^ n <= 2 ^ (d - 1)) by (apply Z.pow_le_mono_r; lia). lia.
Qed.

Lemma new_location_located (D q r : Z) :
  0 < D -> 0 <= r < D -> located q (new_location D r) (D * q + r) D.
Proof.
  intros HD Hr. unfold new_location, new_location_even, new_location_odd.
  destruct (Z.even D) eqn:Hev.
  - destruct (Z.eqb_spec r 0) as [-> | Hne]; unfold located; [lia |].
    destruct (Z.compare_spec (2 * r) D); lia.
  - destruct (Z.eqb_spec r 0) as [-> | Hne]; unfold located; [lia |].
    assert (Hodd : Z.odd D = true) by (rewrite <- Z.negb_even, Hev; reflexivity).
    apply Z.odd_spec in Hodd. destruct Hodd as [h Hh].
    destruct (Z.compare_spec (2 * r + 1) D); lia.
Qed.

Lemma round_nearest_even_near (q : Z) (l : location) (N D : Z) :
  0 < D -> located q l N D ->
  (round_nearest_even q l = q \/ round_nearest_even q l = q + 1) /\
  Z.abs (2 * N - 2 * round_nearest_even q l * D) <= D.
Proof.
  intros HD Hl. destruct l as [| []]; unfold located, round_nearest_even in *.
  - split; [auto | nia].
  - destruct (Z.even q); split; auto; nia.
  - split; [auto | nia].
  - split; [auto | nia].
Qed.

(** ** Rounding to 53 bits *)

Lemma fexp_normal (x : Z) : -1021 <= x -> fexp 53 1024 x = x - 53.
Proof. intros H. unfold fexp, emin. lia. Qed.

Lemma shr_1_odd (p : positive) (l : location) :
  shr_1 (shr_record_of_loc (Z.pos p~1) l) =
  {| shr_m := Z.pos p; shr_r := true; shr_s := sticky l |}.
Proof. destruct l as [| []]; reflexivity. Qed.

Lemma shr_1_even (p : positive) (l : location) :
  shr_1 (shr_record_of_loc (Z.pos p~0) l) =
  {| shr_m := Z.pos p; shr_r := false; shr_s := sticky l |}.
Proof. destruct l as [| []]; reflexivity. Qed.

(** First alignment: a mantissa of 53 or 54 bits is brought to 53. *)
Lemma shr_fexp_first (q e : Z) (l : location) (N D : Z) :
  0 < D -> located q l N D -> 2 ^ 52 <= q < 2 ^ 54 -> -1074 <= e ->
  exists mrs j,
    shr_fexp 53 1024 q e l = (mrs, e + j) /\ (j = 0 \/ j = 1) /\
    located (shr_m mrs) (loc_of_shr_record mrs) N (2 ^ j * D) /\
    2 ^ 52 <= shr_m mrs < 2 ^ 53.
Proof.
  intros HD Hl [Hlo Hhi] He. unfold shr_fexp.
  assert (H52 : 2 ^ (53 - 1) = 2 ^ 52) by reflexivity.
  assert (H53 : 2 ^ (54 - 1) = 2 ^ 53) by reflexivity.
  destruct (Z.lt_ge_cases q (2 ^ 53)) as [Hq | Hq].
  - rewrite (Zdigits2_unique q 53) by (rewrite ?H52; lia).
    rewrite fexp_normal by lia.
    replace (53 + e - 53 - e) with 0 by lia. unfold shr.
    exists (shr_record_of_loc q l), 0. rewrite Z.add_0_r.
    split; [reflexivity |]. split; [auto |].
    replace (2 ^ 0 * D) with D by lia.
    destruct l as [| []]; cbn [shr_record_of_loc loc_of_shr_record shr_m];
      auto.
  - rewrite (Zdigits2_unique q 54) by (rewrite ?H53; lia).
    rewrite fexp_normal by lia.
    replace (54 + e - 53 - e) with 1 by lia. unfold shr.
    exists (shr_1 (shr_record_of_loc q l)), 1.
    split; [reflexivity |]. split; [auto |].
    replace (2 ^ 1 * D) with (2 * D) by lia.
    change (2 ^ 52) with 4503599627370496 in *.
    change (2 ^ 53) with 9007199254740992 in *.
    change (2 ^ 54) with 18014398509481984 in *.
    destruct q as [| p | p]; try lia.
    destruct p as [p | p |]; try lia.
    + rewrite shr_1_odd. rewrite (Pos2Z.inj_xI p) in *.
      destruct l as [| []]; unfold located in *;
        cbn [sticky loc_of_shr_record shr_m]; lia.
    + rewrite shr_1_even. rewrite (Pos2Z.inj_xO p) in *.
      destruct l as [| []]; unfold located in *;
        cbn [sticky loc_of_shr_record shr_m]; lia.
Qed.

(** Rounding a located mantissa of 53 or 54 bits: the result is a
    normal number within half a unit in the last place. *)
Lemma binary_round_aux_spec (sx : bool) (q e : Z) (l : location) (N D : Z) :
  0 < D -> located q l N D -> 2 ^ 52 <= q < 2 ^ 54 -> -1074 <= e <= 960 ->
  exists m j,
    0 <= j <= 2 /\
    binary_round_aux 53 1024 sx q e l = S754_finite sx m (e + j) /\
    2 ^ 52 <= Z.pos m < 2 ^ 53 /\
    Z.abs (2 * N - 2 * Z.pos m * (2 ^ j * D)) <= 2 ^ j * D.
Proof.
  intros HD Hl Hq He. unfold binary_round_aux.
  destruct (shr_fexp_first q e l N D HD Hl Hq (proj1 He))
    as [mrs [j1 [E1 [Hj1 [Hloc Hm]]]]].
  rewrite E1. cbv beta iota.
  assert (HD' : 0 < 2 ^ j1 * D) by (destruct Hj1 as [-> | ->]; lia).
  destruct (round_nearest_even_near _ _ _ _ HD' Hloc) as [Hr Hnear].
  set (m1 := round_nearest_even (shr_m mrs) (loc_of_shr_record mrs)) in *.
  assert (H52 : 2 ^ (53 - 1) = 2 ^ 52) by reflexivity.
  assert (H53 : 2 ^ (54 - 1) = 2 ^ 53) by reflexivity.
  destruct (Z.lt_ge_cases m1 (2 ^ 53)) as [Hlt | Hge].
  - unfold shr_fexp.
    rewrite (Zdigits2_unique m1 53) by (rewrite ?H52; lia).
    rewrite fexp_normal by lia.
    replace (53 + (e + j1) - 53 - (e + j1)) with 0 by lia.
    unfold shr. cbn [shr_record_of_loc shr_m].
    destruct m1 as [| m | m] eqn:Em; try lia.
    replace (e + j1 <=? 1024 - 53) with true by (symmetry; apply Z.leb_le; lia).
    exists m, j1. repeat split; try lia.
  - assert (Em : m1 = 2 ^ 53) by lia.
    rewrite Em in *. unfold shr_fexp.
    rewrite (Zdigits2_unique (2 ^ 53) 54) by (rewrite ?H53; lia).
    rewrite fexp_normal by lia.
    replace (54 + (e + j1) - 53 - (e + j1)) with 1 by lia.
    unfold shr. change (iter_pos shr_1 1 (shr_record_of_loc (2 ^ 53) loc_Exact))
      with {| shr_m := 2 ^ 52; shr_r := false; shr_s := false |}.
    cbn [shr_m]. change (2 ^ 52) with (Z.pos (Z.to_pos (2 ^ 52))) at 1.
    cbv beta iota.
    replace (e + j1 + 1 <=? 1024 - 53) with true
      by (symmetry; apply Z.leb_le; lia).
    exists (Z.to_pos (2 ^ 52)), (j1 + 1).
    replace (e + (j1 + 1)) with (e + j1 + 1) by lia.
    change (Z.pos (Z.to_pos (2 ^ 52))) with (2 ^ 52).
    split; [lia |]. split; [reflexivity |]. split; [lia |].
    rewrite Z.pow_add_r by lia. lia.
Qed.

(** ** The division that converts a price *)

Lemma pow2_lt_inv (a b : Z) : 0 <= b -> 2 ^ a < 2 ^ b -> a < b.
Proof.
  intros Hb H. destruct (Z.lt_ge_cases a b) as [Hlt | Hge]; [exact Hlt |].
  assert (2 ^ b <= 2 ^ a) by (apply Z.pow_le_mono_r; lia). lia.
Qed.

Lemma binary64_div_spec (s : bool) (mx : positive) (k : Z) :
  0 <= k <= 290 -> Z.pos mx < 10 ^ 15 ->
  exists m E,
    2 <= E /\
    binary64_div s mx k = S754_finite s m (- E) /\
    2 ^ 52 <= Z.pos m < 2 ^ 53 /\
    Z.abs (Z.pos mx * 2 ^ (E + 1) - 2 * Z.pos m * 10 ^ k) <= 10 ^ k.
Proof.
  intros Hk Hmx. unfold binary64_div, SFdiv, SFdiv_core_binary.
  assert (HK : 0 < 10 ^ k) by (apply Z.pow_pos_nonneg; lia).
  assert (HK' : 10 ^ k <= 10 ^ 290) by (apply Z.pow_le_mono_r; lia).
  assert (EK : 10 ^ k = Z.pos (Z.to_pos (10 ^ k)))
    by (symmetry; apply Z2Pos.id; exact HK).
  remember (Z.to_pos (10 ^ k)) as my eqn:Emy. clear Emy.
  rewrite EK in HK, HK' |- *. clear EK.
  cbn [Zdigits2].
  pose proof (digits2_pos_bounds mx) as [Hd1l Hd1h].
  pose proof (digits2_pos_bounds my) as [Hd2l Hd2h].
  assert (Hd1p : 0 < Z.pos (digits2_pos mx)) by lia.
  assert (Hd2p : 0 < Z.pos (digits2_pos my)) by lia.
  remember (Z.pos (digits2_pos mx)) as d1 eqn:Ed1. clear Ed1.
  remember (Z.pos (digits2_pos my)) as d2 eqn:Ed2. clear Ed2.
  remember (Z.pos my) as K eqn:EK. clear EK.
  assert (Hd1 : 1 <= d1 <= 50).
  { split; [lia |].
    assert (d1 - 1 < 50); [| lia].
    apply pow2_lt_inv; [lia |].
    apply Z.le_lt_trans with (Z.pos mx); [exact Hd1l |].
    apply Z.lt_trans with (10 ^ 15); [exact Hmx | reflexivity]. }
  assert (Hd2 : 1 <= d2 <= 964).
  { split; [lia |].
    assert (d2 - 1 < 964); [| lia].
    apply pow2_lt_inv; [lia |].
    apply Z.le_lt_trans with K; [exact Hd2l |].
    apply Z.le_lt_trans with (10 ^ 290); [exact HK' | reflexivity]. }
  rewrite !Z.add_0_r. rewrite fexp_normal by lia.
  change IntDef.Z.min with Z.min. change IntDef.Z.shiftl with Z.shiftl.
  change IntDef.Z.div_eucl with Z.div_eucl.
  replace (Z.min (d1 - d2 - 53) (0 - 0)) with (d1 - d2 - 53) by lia.
  replace (0 - 0 - (d1 - d2 - 53)) with (53 + d2 - d1) by lia.
  destruct (53 + d2 - d1) as [| sp | sp] eqn:Es; try lia.
  rewrite <- Es. rewrite Z.shiftl_mul_pow2 by lia.
  remember (Z.pos mx * 2 ^ (53 + d2 - d1)) as N eqn:EN.
  pose proof (Z_div_mod N K ltac:(lia)) as Hdiv.
  destruct (Z.div_eucl N K) as [q r]. destruct Hdiv as [HN Hr].
  (* the quotient has 53 or 54 bits *)
  assert (Hs : 2 ^ (53 + d2 - d1) = 2 ^ (53 - d1) * (2 * 2 ^ (d2 - 1))).
  { rewrite <- Z.pow_succ_r by lia. rewrite <- Z.pow_add_r by lia.
    f_equal. lia. }
  assert (HA : 2 ^ 52 <= Z.pos mx * 2 ^ (53 - d1) < 2 ^ 53).
  { assert (H52 : 2 ^ 52 = 2 ^ (d1 - 1) * 2 ^ (53 - d1)).
    { rewrite <- Z.pow_add_r by lia. f_equal. lia. }
    assert (H53 : 2 ^ 53 = 2 ^ d1 * 2 ^ (53 - d1)).
    { rewrite <- Z.pow_add_r by lia. f_equal. lia. }
    assert (0 < 2 ^ (53 - d1)) by (apply Z.pow_pos_nonneg; lia).
    rewrite H52, H53. split.
    - apply Z.mul_le_mono_nonneg_r; lia.
    - apply Z.mul_lt_mono_pos_r; lia. }
  assert (HNA : N = Z.pos mx * 2 ^ (53 - d1) * (2 * 2 ^ (d2 - 1))).
  { rewrite EN, Hs. ring. }
  remember (Z.pos mx * 2 ^ (53 - d1)) as A eqn:EA. clear EA.
  assert (Hd2h' : K < 2 * 2 ^ (d2 - 1)).
  { rewrite <- Z.pow_succ_r by lia. replace (Z.succ (d2 - 1)) with d2 by lia.
    exact Hd2h. }
  assert (HP : 0 < 2 ^ (d2 - 1)) by (apply Z.pow_pos_nonneg; lia).
  remember (2 ^ (d2 - 1)) as P eqn:EP. clear EP.
  assert (Hq : 2 ^ 52 <= q < 2 ^ 54).
  { change (2 ^ 52) with 4503599627370496 in *.
    change (2 ^ 53) with 9007199254740992 in *.
    change (2 ^ 54) with 18014398509481984.
    split.
    - assert (4503599627370496 * K < K * (q + 1)) by nia. nia.
    - assert (K * q < 18014398509481984 * K) by nia. nia. }
  assert (Hloc : located q (new_location K r) N K).
  { rewrite HN. apply new_location_located; lia. }
  destruct (binary_round_aux_spec (xorb s false) q (d1 - d2 - 53)
              (new_location K r) N K HK Hloc Hq ltac:(lia))
    as [m [j [Hj [Eq [Hm Hnear]]]]].
  rewrite Eq. rewrite xorb_false_r.
  exists m, (53 + d2 - d1 - j). split; [lia |].
  split; [f_equal; lia |]. split; [exact Hm |].
  assert (Hpow : 2 ^ (53 + d2 - d1) = 2 ^ j * 2 ^ (53 + d2 - d1 - j)).
  { rewrite <- Z.pow_add_r by lia. f_equal. lia. }
  assert (Hj2 : 0 < 2 ^ j) by (apply Z.pow_pos_nonneg; lia).
  replace (53 + d2 - d1 - j + 1) with (Z.succ (53 + d2 - d1 - j)) by lia.
  rewrite Z.pow_succ_r by lia.
  rewrite EN, Hpow in Hnear.
  remember (2 ^ (53 + d2 - d1 - j)) as T eqn:ET. clear ET.
  remember (2 ^ j) as J eqn:EJ. clear EJ.
  apply Z.mul_le_mono_pos_l with (p := J); [exact Hj2 |].
  rewrite <- (Z.abs_eq J) at 1 by lia. rewrite <- Z.abs_mul.
  replace (J * (Z.pos mx * (2 * T) - 2 * Z.pos m * K))
    with (2 * (Z.pos mx * (J * T)) - 2 * Z.pos m * (J * K)) by ring.
  exact Hnear.
Qed.

(** ** Prices of at most fifteen digits *)

Lemma near_same_float (c1 c2 k1 k2 m T : Z) :
  0 < c1 -> 0 < c2 < 10 ^ 15 -> 0 <= k1 <= k2 -> 0 < T -> 2 ^ 52 <= m ->
  Z.abs (c1 * (2 * T) - 2 * m * 10 ^ k1) <= 10 ^ k1 ->
  Z.abs (c2 * (2 * T) - 2 * m * 10 ^ k2) <= 10 ^ k2 ->
  c1 * 10 ^ (k2 - k1) = c2.
Proof.
  intros Hc1 Hc2 Hk HT Hm H1 H2.
  assert (HK2 : 10 ^ k2 = 10 ^ k1 * 10 ^ (k2 - k1)).
  { rewrite <- Z.pow_add_r by lia. f_equal. lia. }
  assert (HK1 : 0 < 10 ^ k1) by (apply Z.pow_pos_nonneg; lia).
  assert (HD : 0 < 10 ^ (k2 - k1)) by (apply Z.pow_pos_nonneg; lia).
  rewrite HK2 in H2.
  remember (10 ^ k1) as K1 eqn:E1. clear E1.
  remember (10 ^ (k2 - k1)) as D eqn:E2. clear E2 HK2.
  assert (Hlim : 10 ^ 15 < 2 ^ 52) by reflexivity.
  remember (10 ^ 15) as L eqn:E3. clear E3.
  remember (2 ^ 52) as B eqn:E4. clear E4.
  assert (H1' : Z.abs (c1 * D * (2 * T) - 2 * m * (K1 * D)) <= K1 * D).
  { replace (c1 * D * (2 * T) - 2 * m * (K1 * D))
      with ((c1 * (2 * T) - 2 * m * K1) * D) by ring.
    rewrite Z.abs_mul, (Z.abs_eq D) by lia.
    apply Z.mul_le_mono_nonneg_r; lia. }
  destruct (Z.eq_dec (c1 * D) c2) as [Heq | Hne]; [exact Heq | exfalso].
  assert (HT' : T <= K1 * D).
  { assert (Hx : 2 * T * Z.abs (c1 * D - c2) <= 2 * (K1 * D)).
    { replace (2 * T * Z.abs (c1 * D - c2))
        with (Z.abs ((c1 * D * (2 * T) - 2 * m * (K1 * D)) -
                     (c2 * (2 * T) - 2 * m * (K1 * D)))).
      - lia.
      - replace (c1 * D * (2 * T) - 2 * m * (K1 * D) -
                 (c2 * (2 * T) - 2 * m * (K1 * D)))
          with (2 * T * (c1 * D - c2)) by ring.
        rewrite Z.abs_mul, (Z.abs_eq (2 * T)) by lia. reflexivity. }
    assert (1 <= Z.abs (c1 * D - c2)) by lia.
    assert (2 * T * 1 <= 2 * T * Z.abs (c1 * D - c2))
      by (apply Z.mul_le_mono_nonneg_l; lia).
    lia. }
  assert (Hc : c2 * T <= c2 * (K1 * D))
    by (apply Z.mul_le_mono_nonneg_l; lia).
  assert (Hm' : B * (K1 * D) <= m * (K1 * D))
    by (apply Z.mul_le_mono_nonneg_r; lia).
  assert (Hc' : c2 * (K1 * D) + (K1 * D) <= L * (K1 * D)).
  { replace (c2 * (K1 * D) + K1 * D) with ((c2 + 1) * (K1 * D)) by ring.
    apply Z.mul_le_mono_nonneg_r; lia. }
  assert (HL : L * (K1 * D) < B * (K1 * D))
    by (apply Z.mul_lt_mono_pos_r; lia).
  lia.
Qed.

Lemma floats_apart_pos (s1 s2 : bool) (m1 m2 : positive) (k1 k2 : Z) :
  Z.pos m1 < 10 ^ 15 -> Z.pos m2 < 10 ^ 15 ->
  0 <= k1 <= 290 -> 0 <= k2 <= 290 ->
  binary64_div s1 m1 k1 = binary64_div s2 m2 k2 ->
  s1 = s2 /\
  Z.pos m1 * 10 ^ (Z.max k1 k2 - k1) = Z.pos m2 * 10 ^ (Z.max k1 k2 - k2).
Proof.
  intros Hm1 Hm2 Hk1 Hk2 Heq.
  destruct (binary64_div_spec s1 m1 k1 Hk1 Hm1) as [a1 [E1 [HE1 [F1 [Ha1 Hn1]]]]].
  destruct (binary64_div_spec s2 m2 k2 Hk2 Hm2) as [a2 [E2 [HE2 [F2 [Ha2 Hn2]]]]].
  rewrite F1, F2 in Heq. injection Heq as Hs Ha HE.
  assert (E1 = E2) by lia. subst E2 a2. split; [exact Hs |].
  replace (E1 + 1) with (Z.succ E1) in Hn1, Hn2 by lia.
  rewrite Z.pow_succ_r in Hn1, Hn2 by lia.
  assert (HT : 0 < 2 ^ E1) by (apply Z.pow_pos_nonneg; lia).
  destruct (Z.le_ge_cases k1 k2) as [Hle | Hge].
  - rewrite Z.max_r by lia. replace (k2 - k2) with 0 by lia.
    rewrite Z.pow_0_r, Z.mul_1_r.
    apply (near_same_float _ _ k1 k2 (Z.pos a1) (2 ^ E1)); try lia.
  - rewrite Z.max_l by lia. replace (k1 - k1) with 0 by lia.
    rewrite Z.pow_0_r, Z.mul_1_r. symmetry.
    apply (near_same_float _ _ k2 k1 (Z.pos a1) (2 ^ E1)); try lia.
Qed.

Lemma float_binary64_injective (d1 d2 : Decimal) :
  stored_price 15 d1 -> stored_price 15 d2 ->
  float_binary64 d1 = float_binary64 d2 -> same_value d1 d2.
Proof.
  destruct d1 as [c1 e1], d2 as [c2 e2].
  unfold stored_price, same_value, float_binary64. simpl dec_coefficient.
  simpl dec_exponent. intros [Hc1 He1] [Hc2 He2].
  replace (0 <? e1) with false by (symmetry; apply Z.ltb_ge; lia).
  replace (0 <? e2) with false by (symmetry; apply Z.ltb_ge; lia).
  assert (Hmin : Z.min e1 e2 = - Z.max (- e1) (- e2)) by lia.
  rewrite Hmin.
  replace (e1 - - Z.max (- e1) (- e2)) with (Z.max (- e1) (- e2) - - e1) by lia.
  replace (e2 - - Z.max (- e1) (- e2)) with (Z.max (- e1) (- e2) - - e2) by lia.
  destruct c1 as [| m1 | m1], c2 as [| m2 | m2]; intros Heq.
  - reflexivity.
  - destruct (binary64_div_spec false m2 (- e2)) as [a [E [_ [F _]]]];
      [lia | exact Hc2 |]. rewrite F in Heq. discriminate.
  - destruct (binary64_div_spec true m2 (- e2)) as [a [E [_ [F _]]]];
      [lia | exact Hc2 |]. rewrite F in Heq. discriminate.
  - destruct (binary64_div_spec false m1 (- e1)) as [a [E [_ [F _]]]];
      [lia | exact Hc1 |]. rewrite F in Heq. discriminate.
  - apply (floats_apart_pos false false m1 m2 (- e1) (- e2));
      try lia; assumption.
  - destruct (floats_apart_pos false true m1 m2 (- e1) (- e2)) as [Hs _];
      try lia; try assumption; try discriminate.
  - destruct (binary64_div_spec true m1 (- e1)) as [a [E [_ [F _]]]];
      [lia | exact Hc1 |]. rewrite F in Heq. discriminate.
  - destruct (floats_apart_pos true false m1 m2 (- e1) (- e2)) as [Hs _];
      try lia; try assumption; try discriminate.
  - destruct (floats_apart_pos true true m1 m2 (- e1) (- e2)) as [_ Hv];
      try lia; try assumption.
Qed.

(** C8, as amended.  For stored prices written with at most fifteen
    digits, [float(row["price"])] keeps the digits: two such prices
    are converted to the same float only when they denote the same
    number, as 12.50 and 12.5 do; so 12.503 is not converted to the
    float of 12.5. *)
Theorem fifteen_digit_prices_kept_apart (d1 d2 : Decimal) :
  stored_price 15 d1 -> stored_price 15 d2 ->
  py_float float_binary64 (Some d1) = py_float float_binary64 (Some d2) ->
  same_value d1 d2.
Proof.
  intros H1 H2 Heq. unfold py_float in Heq. injection Heq as Heq.
  apply float_binary64_injective; assumption.
Qed.

(** The stored prices 12.50 and 12.5 are converted to the same float,
    and they are the same number. *)
Lemma fifteen_digit_prices_kept_apart_witness :
  stored_price 15 (mkDecimal 1250 (-2)) /\
  stored_price 15 (mkDecimal 125 (-1)) /\
  py_float float_binary64 (Some (mkDecimal 1250 (-2))) =
    py_float float_binary64 (Some (mkDecimal 125 (-1))) /\
  same_value (mkDecimal 1250 (-2)) (mkDecimal 125 (-1)).
Proof.
  assert (H1 : stored_price 15 (mkDecimal 1250 (-2))).
  { vm_compute. repeat split; try reflexivity; intros H; discriminate H. }
  assert (H2 : stored_price 15 (mkDecimal 125 (-1))).
  { vm_compute. repeat split; try reflexivity; intros H; discriminate H. }
  assert (H3 : py_float float_binary64 (Some (mkDecimal 1250 (-2))) =
               py_float float_binary64 (Some (mkDecimal 125 (-1)))).
  { vm_compute. reflexivity. }
  split; [exact H1 |]. split; [exact H2 |]. split; [exact H3 |].
  exact (fifteen_digit_prices_kept_apart _ _ H1 H2 H3).
Defined.

(** The claim as stated, refuted: the stored price
    12345678901234567.89, of nineteen digits, is converted to the
    float of 12345678901234568, a different number of seventeen
    digits. *)
Lemma long_price_loses_digits :
  stored_price 19 (mkDecimal 1234567890123456789 (-2)) /\
  stored_price 19 (mkDecimal 12345678901234568 0) /\
  py_float float_binary64 (Some (mkDecimal 1234567890123456789 (-2))) =
    py_float float_binary64 (Some (mkDecimal 12345678901234568 0)) /\
  ~ same_value (mkDecimal 1234567890123456789 (-2))
               (mkDecimal 12345678901234568 0).
Proof.
  split; [| split; [| split]].
  - vm_compute. repeat split; try reflexivity; intros H; discriminate H.
  - vm_compute. repeat split; try reflexivity; intros H; discriminate H.
  - vm_compute. reflexivity.
  - intros H. vm_compute in H. discriminate H.
Qed.

(** Fifteen digits is the most that can be promised: the sixteen-digit
    prices 9007199254740993 and 9007199254740992 are converted to the
    same float. *)
Example sixteen_digit_prices_collide :
  stored_price 16 (mkDecimal 9007199254740993 0) /\
  stored_price 16 (mkDecimal 9007199254740992 0) /\
  float_binary64 (mkDecimal 9007199254740993 0) =
    float_binary64 (mkDecimal 9007199254740992 0) /\
  ~ same_value (mkDecimal 9007199254740993 0) (mkDecimal 9007199254740992 0).
Proof.
  split; [| split; [| split]].
  - vm_compute. repeat split; try reflexivity; intros H; discriminate H.
  - vm_compute. repeat split; try reflexivity; intros H; discriminate H.
  - vm_compute. reflexivity.
  - intros H. vm_compute in H. discriminate H.
Qed.

(** The stored price 12.503 is not converted to the float of 12.5. *)
Example price_12_503_is_not_12_5 :
  float_binary64 (mkDecimal 12503 (-3)) <> float_binary64 (mkDecimal 125 (-1)).
Proof.
  intros H. apply float_binary64_injective in H.
  - vm_compute in H. discriminate H.
  - vm_compute. repeat split; try reflexivity; intros H'; discriminate H'.
  - vm_compute. repeat split; try reflexivity; intros H'; discriminate H'.
Qed.

(** The float of 0.1, bit for bit. *)
Example float_of_one_tenth :
  float_binary64 (mkDecimal 1 (-1)) =
  S754_finite false 7205759403792794 (-56).
Proof. vm_compute. reflexivity. Qed.
